(** * Confluence publishing scripts: a shallow embedding

    The Python modules [confluence_automation.py], [upload_ils.py] and
    [upload_ils_folder.py] drive a wiki platform through its REST API.
    This file embeds

    - the string helpers the scripts rely on ([str.replace], [in],
      [str.lower], [str.endswith]);
    - the values [response.json()] yields, with Python's subscripting,
      [.get], truth value, [==] and [+ 1] on them;
    - the three operations of [confluence_automation.py]
      ([get_page_id_by_title], [new_page], [upload_attachment_to_page]) as
      programs of a state-and-exception monad over an arbitrary HTTP
      transport;
    - the per-file loop of [upload_ils_folder.py];

    and states the properties of the page and attachment upsert flows over
    these definitions. *)

From Stdlib Require Import String Ascii List ZArith Bool Lia Arith.
Import ListNotations.
Open Scope string_scope.

(** ** Strings *)

Module PyStr.

(** [s.startswith(pre)] *)
Fixpoint startswith (pre s : string) {struct pre} : bool :=
  match pre with
  | EmptyString => true
  | String a pre' =>
      match s with
      | EmptyString => false
      | String b s' => Ascii.eqb a b && startswith pre' s'
      end
  end.

(** [s.replace(old, new)] for a non-empty [old]: occurrences are found left
    to right and do not overlap.  [skip] counts the characters of the
    occurrence just replaced that are still to be dropped. *)
Fixpoint replace_from (old new : string) (skip : nat) (s : string) : string :=
  match s with
  | EmptyString => EmptyString
  | String c r =>
      match skip with
      | S k => replace_from old new k r
      | O =>
          if startswith old s
          then new ++ replace_from old new (String.length old - 1) r
          else String c (replace_from old new 0 r)
      end
  end.

Definition replace (old new s : string) : string := replace_from old new 0 s.

(** [sub in s] *)
Fixpoint contains (sub s : string) : bool :=
  startswith sub s ||
  match s with
  | EmptyString => false
  | String _ r => contains sub r
  end.

(** [s[:n]] *)
Definition take (n : nat) (s : string) : string := substring 0 n s.

(** [s.lower()], on the ASCII letters. *)
Definition lower_ascii (c : ascii) : ascii :=
  let n := nat_of_ascii c in
  if (65 <=? n)%nat && (n <=? 90)%nat then ascii_of_nat (n + 32) else c.

Fixpoint lower (s : string) : string :=
  match s with
  | EmptyString => EmptyString
  | String c r => String (lower_ascii c) (lower r)
  end.

(** [s.endswith(suffix)] *)
Definition endswith (s suffix : string) : bool :=
  let n := String.length s in
  let m := String.length suffix in
  (m <=? n)%nat && String.eqb (substring (n - m) m s) suffix.

(** [s.endswith(tuple)] *)
Definition endswith_any (s : string) (suffixes : list string) : bool :=
  existsb (endswith s) suffixes.

End PyStr.

(** ** The code block's CDATA payload *)

Definition CDATA_OPEN : string := "<![CDATA[".
Definition CDATA_END : string := "]]>".
Definition CDATA_END_ESCAPED : string := "]]]]><![CDATA[>".

(** [upload_ils_folder.py], [get_content_body_for_file]:
    [safe_content = raw_content.replace(']]>', ']]]]><![CDATA[>')] *)
Definition escape_cdata (raw_content : string) : string :=
  PyStr.replace CDATA_END CDATA_END_ESCAPED raw_content.

(** [upload_ils.py], [upload_skill_file]: line endings are normalised
    before the same replacement. *)
Definition CRLF : string := String (ascii_of_nat 13) (String (ascii_of_nat 10) "").
Definition LF : string := String (ascii_of_nat 10) "".

Definition skill_safe_content (file_content : string) : string :=
  let safe_content := PyStr.replace CRLF LF file_content in
  PyStr.replace CDATA_END CDATA_END_ESCAPED safe_content.

(** The payload as both templates embed it:
    [<![CDATA[{safe_content}]]>]. *)
Definition cdata_payload (safe_content : string) : string :=
  CDATA_OPEN ++ safe_content ++ CDATA_END.

(** Modelled from the spec: the storage-format parser belongs to the
    platform, not to the repository; this is how an XML parser reads a run
    of CDATA sections, the rule the escaping is written against.  A
    section opens with [<![CDATA[], its text runs up to the first []]>],
    and the text of the run is the concatenation of the sections' texts.  [inside] tells whether a
    section is open, [skip] counts delimiter characters still to be
    dropped.  [None]: the input is not a run of complete sections. *)
Fixpoint cdata_text_from (inside : bool) (skip : nat) (s : string) : option string :=
  match s with
  | EmptyString => if inside then None else Some EmptyString
  | String c r =>
      match skip with
      | S k => cdata_text_from inside k r
      | O =>
          if inside then
            if PyStr.startswith CDATA_END s
            then cdata_text_from false 2 r
            else option_map (String c) (cdata_text_from true 0 r)
          else
            if PyStr.startswith CDATA_OPEN s
            then cdata_text_from true 8 r
            else None
      end
  end.

Definition cdata_text (markup : string) : option string :=
  cdata_text_from false 0 markup.

(** ** Values read from JSON bodies

    [response.json()] yields Python values built from [None], booleans,
    integers, strings, lists and dictionaries (numbers of the platform's
    bodies are integers; an object is kept as its key/value pairs in
    insertion order, keys distinct). *)

#[warnings="-register-all"]
Inductive json : Type :=
| JNull
| JBool (b : bool)
| JNum (n : Z)
| JStr (s : string)
| JArr (xs : list json)
| JObj (kvs : list (string * json)).

(** Exceptions.  Every one of them is an instance of Python's [Exception],
    so each is caught by [except Exception]. *)
Inductive failure : Type :=
| FailedToFetchPageId (status : Z) (body : string)
| NoPageFound (title space : option string)
| FailedToUpdateAttachment (status : Z) (body : string)
| FailedToFindExistingAttachment (status : Z) (body : string)
| FailedToUploadAttachment (status : Z) (body : string).

Inductive exn : Type :=
| ValueError (message : string)
| Exception (f : failure)          (* [raise Exception(f"...")] *)
| JSONDecodeError
| KeyError
| IndexError
| TypeError
| AttributeError
| OSError
| ConnectionError.

Inductive result (A : Type) : Type :=
| Ok (a : A)
| Raise (e : exn).
Arguments Ok {A} a.
Arguments Raise {A} e.

Definition rbind {A B} (r : result A) (k : A -> result B) : result B :=
  match r with
  | Ok a => k a
  | Raise e => Raise e
  end.

Declare Scope result_scope.
Delimit Scope result_scope with result.
Notation "x <- r ;; k" := (rbind r (fun x => k))
  (at level 61, r at next level, right associativity) : result_scope.

Module Py.

Fixpoint assoc (k : string) (kvs : list (string * json)) : option json :=
  match kvs with
  | [] => None
  | (k', v) :: rest => if String.eqb k k' then Some v else assoc k rest
  end.

(** [bool(v)] *)
Definition truthy (v : json) : bool :=
  match v with
  | JNull => false
  | JBool b => b
  | JNum n => negb (n =? 0)%Z
  | JStr s => negb (String.eqb s "")
  | JArr xs => match xs with [] => false | _ :: _ => true end
  | JObj kvs => match kvs with [] => false | _ :: _ => true end
  end.

(** [a == b]: booleans compare with integers as 0 and 1, lists
    elementwise, dictionaries as maps. *)
Fixpoint equal (a b : json) {struct a} : bool :=
  match a, b with
  | JNull, JNull => true
  | JBool x, JBool y => Bool.eqb x y
  | JBool x, JNum n => (Z.b2z x =? n)%Z
  | JNum m, JBool y => (m =? Z.b2z y)%Z
  | JNum m, JNum n => (m =? n)%Z
  | JStr s, JStr t => String.eqb s t
  | JArr xs, JArr ys =>
      (fix all2 (xs ys : list json) : bool :=
         match xs, ys with
         | [], [] => true
         | x :: xs', y :: ys' => equal x y && all2 xs' ys'
         | _, _ => false
         end) xs ys
  | JObj kvs, JObj kws =>
      (List.length kvs =? List.length kws)%nat &&
      (fix each (kvs : list (string * json)) : bool :=
         match kvs with
         | [] => true
         | (k, v) :: rest =>
             match assoc k kws with
             | Some w => equal v w
             | None => false
             end && each rest
         end) kvs
  | _, _ => false
  end.

(** [v[k]] for a string key. *)
Definition getitem (v : json) (k : string) : result json :=
  match v with
  | JObj kvs => match assoc k kvs with Some x => Ok x | None => Raise KeyError end
  | _ => Raise TypeError
  end.

(** The position an integer index denotes in a sequence of length [len]. *)
Definition position (len : nat) (i : Z) : option nat :=
  let j := if (i <? 0)%Z then (i + Z.of_nat len)%Z else i in
  if (0 <=? j)%Z && (j <? Z.of_nat len)%Z then Some (Z.to_nat j) else None.

(** [v[i]] for an integer index. *)
Definition getindex (v : json) (i : Z) : result json :=
  match v with
  | JArr xs =>
      match position (List.length xs) i with
      | Some n => match nth_error xs n with Some x => Ok x | None => Raise IndexError end
      | None => Raise IndexError
      end
  | JStr s =>
      match position (String.length s) i with
      | Some n => match String.get n s with
                  | Some c => Ok (JStr (String c ""))
                  | None => Raise IndexError
                  end
      | None => Raise IndexError
      end
  | JObj _ => Raise KeyError
  | _ => Raise TypeError
  end.

(** [v.get(k, default)] *)
Definition get (v : json) (k : string) (default : json) : result json :=
  match v with
  | JObj kvs => Ok (match assoc k kvs with Some x => x | None => default end)
  | _ => Raise AttributeError
  end.

Fixpoint chars (s : string) : list json :=
  match s with
  | EmptyString => []
  | String c r => JStr (String c "") :: chars r
  end.

(** The items [for x in v] visits. *)
Definition iter (v : json) : result (list json) :=
  match v with
  | JArr xs => Ok xs
  | JObj kvs => Ok (map (fun kv => JStr (fst kv)) kvs)
  | JStr s => Ok (chars s)
  | _ => Raise TypeError
  end.

(** [v + 1] *)
Definition add_one (v : json) : result json :=
  match v with
  | JNum n => Ok (JNum (n + 1))
  | JBool b => Ok (JNum (Z.b2z b + 1))
  | _ => Raise TypeError
  end.

(** [prefix + v] for a string [prefix]. *)
Definition concat (prefix : string) (v : json) : result string :=
  match v with
  | JStr s => Ok (prefix ++ s)
  | _ => Raise TypeError
  end.

(** [v in (200, 201)] for an integer [v]. *)
Definition in_200_201 (status : Z) : bool :=
  (status =? 200)%Z || (status =? 201)%Z.

End Py.

(** ** Requests and responses *)

Inductive method : Type := GET | POST | PUT.

(** The paths the scripts build under [CONFLUENCE_BASE_URL].  A value
    formatted into a path by an f-string is kept as the value. *)
Inductive endpoint : Type :=
| Content                                   (* /rest/api/content *)
| ContentSlash                              (* /rest/api/content/ *)
| ContentId (page_id : json)                (* /rest/api/content/{page_id} *)
| ChildAttachment (page_id : json)          (* /rest/api/content/{page_id}/child/attachment *)
| ChildAttachmentNamed (page_id : json) (filename : string)
    (* /rest/api/content/{page_id}/child/attachment?filename={filename}&expand=results *)
| AttachmentData (page_id att_id : json).
    (* /rest/api/content/{page_id}/child/attachment/{att_id}/data *)

Inductive body : Type :=
| NoBody
| JsonBody (payload : json)                                  (* [json=payload] *)
| FilesBody (filename : string) (file_bytes : list Byte.byte) (mime_type : string).
    (* [files={"file": (filename, file_bytes, mime_type)}] *)

Record request : Type := mkRequest {
  req_method : method;
  req_base : string;
  req_path : endpoint;
  req_params : list (string * option string);
  req_headers : list (string * string);
  req_verify : option string;               (* [None] is [verify=False] *)
  req_body : body
}.

Record response : Type := mkResponse {
  status_code : Z;
  text : string;
  json_body : option json                   (* [None]: the body is not JSON *)
}.

(** [response.json()] *)
Definition response_json (r : response) : result json :=
  match json_body r with
  | Some v => Ok v
  | None => Raise JSONDecodeError
  end.

(** The module-level configuration, read from the environment. *)
Record config : Type := mkConfig {
  CONFLUENCE_BASE_URL : string;
  API_TOKEN : string;
  SPACE_KEY : option string;
  PARENT_PAGE_TITLE : option string;
  CERT_PATH : option string
}.

(** Truth value of an optional string ([None] and the empty string are false). *)
Definition nonempty (o : option string) : bool :=
  match o with
  | Some s => negb (String.eqb s "")
  | None => false
  end.

(** What the scripts print. *)
Inductive line : Type :=
| DebugDecodeFailed (preview : string)
| ErrorFindingParent (parent : option string) (e : exn)
| PageUpdated
| PageCreated
| Url (u : string)
| FailedToUpdatePage
| FailedToCreatePage
| StatusCode (status : Z)
| ResponseText (body : string)
| ProcessingFile (filename : string)
| ErrorReadingTextFile (e : exn)
| CreatingSubPage (page_title directory_page_title : string)
| ErrorCreatingPage (e : exn)
| SkippingAttachment (page_title : string)
| AttachmentUploaded (mime_type : string)
| ErrorUploadingAttachment (e : exn).

(** ** State and exceptions *)

Record state (W : Type) : Type := mkState {
  world : W;                 (* whatever answers the requests *)
  sent : list request;       (* requests issued so far, oldest first *)
  printed : list line        (* lines printed so far, oldest first *)
}.
Arguments mkState {W}.
Arguments world {W}.
Arguments sent {W}.
Arguments printed {W}.

Definition M (W A : Type) : Type := state W -> result A * state W.

Definition ret {W A} (a : A) : M W A := fun st => (Ok a, st).

Definition raise {W A} (e : exn) : M W A := fun st => (Raise e, st).

Definition bind {W A B} (m : M W A) (k : A -> M W B) : M W B :=
  fun st =>
    match m st with
    | (Ok a, st') => k a st'
    | (Raise e, st') => (Raise e, st')
    end.

(** [try: m  except Exception as e: ...]: the outcome of [m] as a value. *)
Definition try {W A} (m : M W A) : M W (result A) :=
  fun st => let (r, st') := m st in (Ok r, st').

Definition lift {W A} (r : result A) : M W A := fun st => (r, st).

Definition print {W} (l : line) : M W unit :=
  fun st => (Ok tt, mkState (world st) (sent st) (printed st ++ [l])).

Declare Scope monad_scope.
Delimit Scope monad_scope with monad.
Notation "x <- m ;; k" := (bind m (fun x => k))
  (at level 61, m at next level, right associativity) : monad_scope.
Notation "m ;; k" := (bind m (fun _ => k))
  (at level 61, right associativity) : monad_scope.

(** A transport answers a request with a response or fails (connection
    errors surface as exceptions), and may change the world. *)
Definition transport (W : Type) : Type := request -> W -> result response * W.

Definition send {W} (http : transport W) (rq : request) : M W response :=
  fun st =>
    let (r, w') := http rq (world st) in
    (r, mkState w' (sent st ++ [rq]) (printed st)).

(** A transport that replays a list of prepared answers. *)
Definition replay : transport (list (result response)) :=
  fun _ answers =>
    match answers with
    | a :: rest => (a, rest)
    | [] => (Raise ConnectionError, [])
    end.

(** ** Storage-format templates of [upload_ils_folder.py] *)

Definition dq : string := String (ascii_of_nat 34) "".

Definition CODE_EXTENSIONS : list string := [".ils"; ".il"].
Definition IMAGE_EXTENSIONS : list string := [".png"; ".jpg"; ".jpeg"; ".gif"; ".bmp"].
Definition OFFICE_EXTENSIONS : list string :=
  [".pptx"; ".ppt"; ".xlsx"; ".xls"; ".docx"; ".doc"].
Definition ALL_SUPPORTED_EXTENSIONS : list string :=
  CODE_EXTENSIONS ++ IMAGE_EXTENSIONS ++ OFFICE_EXTENSIONS.

(** [ext in EXTENSIONS] *)
Definition member (ext : string) (extensions : list string) : bool :=
  existsb (String.eqb ext) extensions.

Definition download_section (filename : string) : string :=
    "
        <h3>Download</h3>
        <p>
          <ac:link>
            <ri:attachment ri:filename=" ++
    dq ++ filename ++ dq ++ " />
            <ac:plain-text-link-body><![CDATA[Download " ++
    filename ++ "]]></ac:plain-text-link-body>
          </ac:link>
        </p>
    ".

Definition code_body (filename safe_content : string) : string :=
    "
            <p><b>Filename:</b> " ++
    filename ++ "</p>
            " ++
    download_section filename ++ "
            <h3>Source Code</h3>
            <ac:structured-macro ac:name=" ++
    dq ++ "code" ++ dq ++ ">
                <ac:parameter ac:name=" ++
    dq ++ "language" ++ dq ++ ">lisp</ac:parameter> 
                <ac:parameter ac:name=" ++
    dq ++ "linenumbers" ++ dq ++ ">true</ac:parameter>
                <ac:parameter ac:name=" ++
    dq ++ "theme" ++ dq ++ ">Midnight</ac:parameter>
                <ac:plain-text-body>" ++
    cdata_payload safe_content ++ "</ac:plain-text-body>
            </ac:structured-macro>
            ".

Definition image_body (filename : string) : string :=
    "
        <p><b>Filename:</b> " ++
    filename ++ "</p>
        <p>
            <ac:image>
                <ri:attachment ri:filename=" ++
    dq ++ filename ++ dq ++ " />
            </ac:image>
        </p>
        " ++
    download_section filename ++ "
        ".

Definition office_body (filename : string) : string :=
    "
        <p><b>Filename:</b> " ++
    filename ++ "</p>
        " ++
    download_section filename ++ "
        <h3>Preview</h3>
        <p>
            <ac:structured-macro ac:name=" ++
    dq ++ "view-file" ++ dq ++ ">
                <ac:parameter ac:name=" ++
    dq ++ "name" ++ dq ++ "><ri:attachment ri:filename=" ++ dq ++ filename ++
    dq ++ " /></ac:parameter>
            </ac:structured-macro>
        </p>
        ".

Definition fallback_body (filename : string) : string :=
  "<p><b>Filename:</b> " ++ filename ++ "</p>" ++ download_section filename.

Definition read_error_body (filename : string) : string :=
  "<p>Error reading file content.</p>" ++ download_section filename.

(** ** The platform's attachment endpoints

    Modelled from the spec: the wiki platform is external to the
    repository; this is its attachment store as the data model describes
    it (at most one live attachment per page and filename; posting to an
    attachment's data endpoint replaces its content and keeps its id and
    filename).  Pages are taken to exist; the page endpoints are not part
    of this model. *)

Record attachment : Type := mkAttachment {
  att_id : Z;
  att_page : string;
  att_filename : string;
  att_data : list Byte.byte;
  att_version : Z
}.

Record platform : Type := mkPlatform {
  next_id : Z;
  attachments : list attachment
}.

Definition named (page filename : string) (a : attachment) : bool :=
  String.eqb (att_page a) page && String.eqb (att_filename a) filename.

Definition identified (page : string) (id : Z) (a : attachment) : bool :=
  String.eqb (att_page a) page && (att_id a =? id)%Z.

(** The live attachments of a page under a filename. *)
Definition live (page filename : string) (w : platform) : list attachment :=
  filter (named page filename) (attachments w).

Definition attachment_json (a : attachment) : json :=
  JObj [("id", JNum (att_id a));
        ("type", JStr "attachment");
        ("title", JStr (att_filename a));
        ("version", JObj [("number", JNum (att_version a))])].

Definition result_list (items : list json) : json :=
  JObj [("results", JArr items); ("size", JNum (Z.of_nat (List.length items)))].

Definition json_response (status : Z) (v : json) : response :=
  mkResponse status "" (Some v).

Definition same_file_name_message (filename : string) : string :=
  "Cannot add a new attachment with same file name as an existing attachment: "
  ++ filename.

Definition not_found : response := mkResponse 404 "Not Found" None.

Definition replace_data (page : string) (id : Z) (data : list Byte.byte)
    (a : attachment) : attachment :=
  if identified page id a
  then mkAttachment (att_id a) (att_page a) (att_filename a) data (att_version a + 1)
  else a.

Definition platform_http : transport platform :=
  fun rq w =>
    match req_method rq, req_path rq, req_body rq with
    | POST, ChildAttachment (JStr page), FilesBody filename data _ =>
        if existsb (named page filename) (attachments w)
        then (Ok (mkResponse 400 (same_file_name_message filename) None), w)
        else
          let a := mkAttachment (next_id w) page filename data 1 in
          (Ok (json_response 200 (result_list [attachment_json a])),
           mkPlatform (next_id w + 1) (attachments w ++ [a]))
    | GET, ChildAttachmentNamed (JStr page) filename, _ =>
        (Ok (json_response 200 (result_list (map attachment_json (live page filename w)))), w)
    | POST, AttachmentData (JStr page) (JNum id), FilesBody _ data _ =>
        match find (identified page id) (attachments w) with
        | Some a =>
            (Ok (json_response 200 (attachment_json (replace_data page id data a))),
             mkPlatform (next_id w) (map (replace_data page id data) (attachments w)))
        | None => (Ok not_found, w)
        end
    | _, _, _ => (Ok not_found, w)
    end.

(** The store's invariant: no page holds two live attachments of one
    filename. *)
Definition name_of (a : attachment) : string * string := (att_page a, att_filename a).

Definition platform_wf (w : platform) : Prop := NoDup (map name_of (attachments w)).

Definition empty_platform : platform := mkPlatform 1 [].

(** ** The operations of [confluence_automation.py] *)

Section Client.

Variable W : Type.
Variable http : transport W.
Variable cfg : config.

Local Open Scope monad_scope.

Definition COMMON_HEADERS : list (string * string) :=
  [("Authorization", "Bearer " ++ API_TOKEN cfg)].

(** [verify_ssl = CERT_PATH if CERT_PATH else False] *)
Definition verify_ssl : option string :=
  if nonempty (CERT_PATH cfg) then CERT_PATH cfg else None.

(** The request [requests.get(url, params=params, verify=verify_ssl,
    headers=COMMON_HEADERS)] sends. *)
Definition get_request (path : endpoint) (params : list (string * option string))
    : request :=
  mkRequest GET (CONFLUENCE_BASE_URL cfg) path params COMMON_HEADERS verify_ssl NoBody.

Definition title_query (title : option string) (expand : string)
    : list (string * option string) :=
  [("title", title); ("spaceKey", SPACE_KEY cfg); ("expand", Some expand)].

Definition MISSING_CONFIGURATION : string :=
  "Missing configuration: CONFLUENCE_BASE_URL or SPACE_KEY not set.".

(** The query of [get_page_id_by_title] and the existence check of
    [new_page]. *)
Definition lookup_query (title : option string) : request :=
  get_request Content (title_query title "ancestors").

Definition existence_query (title : string) : request :=
  get_request Content (title_query (Some title) "ancestors,version").

(** [not CONFLUENCE_BASE_URL or not SPACE_KEY] *)
Definition unconfigured : bool :=
  String.eqb (CONFLUENCE_BASE_URL cfg) "" || negb (nonempty (SPACE_KEY cfg)).

Definition get_page_id_by_title (title : option string) : M W json :=
  if unconfigured
  then raise (ValueError MISSING_CONFIGURATION)
  else
    response <- send http (lookup_query title) ;;
    if negb (status_code response =? 200)%Z
    then raise (Exception (FailedToFetchPageId (status_code response) (text response)))
    else
      data <- match json_body response with
              | Some v => ret v
              | None =>
                  print (DebugDecodeFailed (PyStr.take 500 (text response))) ;;
                  raise JSONDecodeError
              end ;;
      size <- lift (Py.getitem data "size") ;;
      if Py.equal size (JNum 0)
      then raise (Exception (NoPageFound title (SPACE_KEY cfg)))
      else
        lift (results <- Py.getitem data "results" ;;
              first <- Py.getindex results 0 ;;
              Py.getitem first "id")%result.

(** The test [ancestors and ancestors[-1]["id"] == parent_id] on one
    element of the result list (the loop variable [result] of the source,
    here [candidate]). *)
Definition under_parent (parent_id candidate : json) : result bool :=
  (ancestors <- Py.get candidate "ancestors" (JArr []) ;;
   if Py.truthy ancestors
   then last <- Py.getindex ancestors (-1) ;;
        id <- Py.getitem last "id" ;;
        Ok (Py.equal id parent_id)
   else Ok false)%result.

(** [page_id = result["id"]] and
    [version = result["version"]["number"] + 1]. *)
Definition target_of (candidate : json) : result (json * json) :=
  (page_id <- Py.getitem candidate "id" ;;
   v <- Py.getitem candidate "version" ;;
   number <- Py.getitem v "number" ;;
   version <- Py.add_one number ;;
   Ok (page_id, version))%result.

(** The loop over [data.get("results", [])]: the first result under the
    parent gives [page_id] and [version] and ends the loop; [None] stands
    for [page_exists = False]. *)
Fixpoint find_existing (parent_id : json) (results : list json)
    : result (option (json * json)) :=
  match results with
  | [] => Ok None
  | candidate :: rest =>
      (found <- under_parent parent_id candidate ;;
       if found : bool
       then target <- target_of candidate ;;
            Ok (Some target)
       else find_existing parent_id rest)%result
  end.

(** The items [for result in data.get("results", [])] visits. *)
Definition result_items (resp : response) : result (list json) :=
  (data <- response_json resp ;;
   results <- Py.get data "results" (JArr []) ;;
   Py.iter results)%result.

Definition existing_page (parent_id : json) (resp : response)
    : result (option (json * json)) :=
  if (status_code resp =? 200)%Z
  then (items <- result_items resp ;;
        find_existing parent_id items)%result
  else Ok None.

(** The id of a candidate's direct parent, [ancestors[-1]["id"]]. *)
Definition last_ancestor_id (candidate : json) : result json :=
  (ancestors <- Py.get candidate "ancestors" (JArr []) ;;
   last <- Py.getindex ancestors (-1) ;;
   Py.getitem last "id")%result.

Definition space_json : json :=
  match SPACE_KEY cfg with
  | Some k => JStr k
  | None => JNull
  end.

Definition storage_body (content : string) : json :=
  JObj [("storage", JObj [("value", JStr content); ("representation", JStr "storage")])].

Definition update_payload (page_id : json) (title content : string)
    (parent_id version : json) : json :=
  JObj [("id", page_id);
        ("type", JStr "page");
        ("title", JStr title);
        ("ancestors", JArr [JObj [("id", parent_id)]]);
        ("space", JObj [("key", space_json)]);
        ("body", storage_body content);
        ("version", JObj [("number", version)])].

Definition create_payload (title content : string) (parent_id : json) : json :=
  JObj [("type", JStr "page");
        ("title", JStr title);
        ("ancestors", JArr [JObj [("id", parent_id)]]);
        ("space", JObj [("key", space_json)]);
        ("body", storage_body content)].

Definition json_headers : list (string * string) :=
  ("Content-Type", "application/json") :: COMMON_HEADERS.

Definition put_request (page_id payload : json) : request :=
  mkRequest PUT (CONFLUENCE_BASE_URL cfg) (ContentId page_id) [] json_headers
    verify_ssl (JsonBody payload).

Definition post_request (payload : json) : request :=
  mkRequest POST (CONFLUENCE_BASE_URL cfg) ContentSlash [] json_headers
    verify_ssl (JsonBody payload).

(** [CONFLUENCE_BASE_URL + response.json()["_links"]["webui"]] *)
Definition webui_url (r : response) : result string :=
  (data <- response_json r ;;
   links <- Py.getitem data "_links" ;;
   webui <- Py.getitem links "webui" ;;
   Py.concat (CONFLUENCE_BASE_URL cfg) webui)%result.

Definition print_failure (headline : line) (r : response) : M W unit :=
  print headline ;;
  print (StatusCode (status_code r)) ;;
  print (ResponseText (text r)).

(** The branch [if page_exists:] of [new_page]. *)
Definition update_existing (title content : string) (parent_id page_id version : json)
    : M W unit :=
  response <- send http
    (put_request page_id (update_payload page_id title content parent_id version)) ;;
  if (status_code response =? 200)%Z
  then print PageUpdated ;;
       u <- lift (webui_url response) ;;
       print (Url u)
  else print_failure FailedToUpdatePage response.

(** The branch [else:] of [new_page]. *)
Definition create_new (title content : string) (parent_id : json) : M W unit :=
  response <- send http (post_request (create_payload title content parent_id)) ;;
  if (status_code response =? 200)%Z || (status_code response =? 201)%Z
  then print PageCreated ;;
       u <- lift (webui_url response) ;;
       print (Url u)
  else print_failure FailedToCreatePage response.

(** [new_page] has no [return] with a value: it yields [None] on every
    path that ends normally, here [tt]. *)
Definition new_page (title content : string) (parent : option string) : M W unit :=
  looked_up <- try (get_page_id_by_title parent) ;;
  match looked_up with
  | Raise e => print (ErrorFindingParent parent e)
  | Ok parent_id =>
      resp <- send http (existence_query title) ;;
      existing <- lift (existing_page parent_id resp) ;;
      match existing with
      | Some (page_id, version) => update_existing title content parent_id page_id version
      | None => create_new title content parent_id
      end
  end.

Definition attachment_headers : list (string * string) :=
  ("X-Atlassian-Token", "no-check") :: COMMON_HEADERS.

Definition attachment_post (path : endpoint) (filename : string)
    (file_bytes : list Byte.byte) (mime_type : string) : request :=
  mkRequest POST (CONFLUENCE_BASE_URL cfg) path [] attachment_headers verify_ssl
    (FilesBody filename file_bytes mime_type).

Definition attachment_lookup (page_id : json) (filename : string) : request :=
  mkRequest GET (CONFLUENCE_BASE_URL cfg) (ChildAttachmentNamed page_id filename) []
    COMMON_HEADERS verify_ssl NoBody.

Definition upload_attachment_to_page (page_id : json) (filename : string)
    (file_bytes : list Byte.byte) (mime_type : string) : M W json :=
  response <- send http
    (attachment_post (ChildAttachment page_id) filename file_bytes mime_type) ;;
  if (status_code response =? 400)%Z && PyStr.contains "same file name" (text response)
  then
    att_resp <- send http (attachment_lookup page_id filename) ;;
    let not_located :=
      raise (Exception (FailedToFindExistingAttachment
                          (status_code att_resp) (text att_resp))) in
    if (status_code att_resp =? 200)%Z
    then
      results <- lift (data <- response_json att_resp ;;
                       Py.get data "results" (JArr []))%result ;;
      if Py.truthy results
      then
        att_id <- lift (first <- Py.getindex results 0 ;;
                        Py.getitem first "id")%result ;;
        update_resp <- send http
          (attachment_post (AttachmentData page_id att_id) filename file_bytes mime_type) ;;
        if Py.in_200_201 (status_code update_resp)
        then lift (response_json update_resp)
        else raise (Exception (FailedToUpdateAttachment
                                 (status_code update_resp) (text update_resp)))
      else not_located
    else not_located
  else if negb (Py.in_200_201 (status_code response))
  then raise (Exception (FailedToUploadAttachment
                           (status_code response) (text response)))
  else lift (response_json response).

(** ** The per-file loop of [upload_ils_folder.py] *)

(** The operating system, as the script reads it ([os.path], [open],
    [mimetypes]). *)
Variable os_path_join : string -> string -> string.
Variable os_path_splitext : string -> string * string.
Variable read_text : string -> result string.           (* [open(p, 'r', ...).read()] *)
Variable read_bytes : string -> result (list Byte.byte). (* [open(p, 'rb').read()] *)
Variable guess_type : string -> option string.           (* [mimetypes.guess_type(p)[0]] *)

Definition get_content_body_for_file (filename file_path : string) : M W string :=
  let ext := PyStr.lower (snd (os_path_splitext filename)) in
  if member ext CODE_EXTENSIONS
  then
    match read_text file_path with
    | Ok raw_content =>
        let safe_content := escape_cdata raw_content in
        ret (code_body filename safe_content)
    | Raise e =>
        print (ErrorReadingTextFile e) ;;
        ret (read_error_body filename)
    end
  else if member ext IMAGE_EXTENSIONS
  then ret (image_body filename)
  else if member ext OFFICE_EXTENSIONS
  then ret (office_body filename)
  else ret (fallback_body filename).

(** The second [try] block of the loop body. *)
Definition attach_file (filename file_path page_title : string) : M W unit :=
  sub_page_id <- get_page_id_by_title (Some page_title) ;;
  if negb (Py.truthy sub_page_id)
  then print (SkippingAttachment page_title)        (* [continue] *)
  else
    let mime_type :=
      match guess_type file_path with
      | Some m => m
      | None => "application/octet-stream"
      end in
    file_bytes <- lift (read_bytes file_path) ;;
    _ <- upload_attachment_to_page sub_page_id filename file_bytes mime_type ;;
    print (AttachmentUploaded mime_type).

(** The start of an iteration: the file is announced and its page body
    built. *)
Definition announce_file (directory_path directory_page_title filename : string)
    : M W string :=
  let file_path := os_path_join directory_path filename in
  let page_title := filename in
  print (ProcessingFile filename) ;;
  child_html <- get_content_body_for_file filename file_path ;;
  print (CreatingSubPage page_title directory_page_title) ;;
  ret child_html.

(** [try: new_page(...)  except Exception as e: print(...); pass] *)
Definition create_sub_page (directory_page_title filename child_html : string)
    : M W unit :=
  let page_title := filename in
  created <- try (new_page page_title child_html (Some directory_page_title)) ;;
  match created with
  | Raise e => print (ErrorCreatingPage e)
  | Ok _ => ret tt
  end.

(** [try: ... upload_attachment_to_page(...) ...
     except Exception as e: print(...)] *)
Definition attach_sub_page (directory_path filename : string) : M W unit :=
  let file_path := os_path_join directory_path filename in
  let page_title := filename in
  attached <- try (attach_file filename file_path page_title) ;;
  match attached with
  | Raise e => print (ErrorUploadingAttachment e)
  | Ok _ => ret tt
  end.

(** One iteration of [for filename in files]. *)
Definition process_file (directory_path directory_page_title filename : string)
    : M W unit :=
  child_html <- announce_file directory_path directory_page_title filename ;;
  create_sub_page directory_page_title filename child_html ;;
  attach_sub_page directory_path filename.

Fixpoint process_files (directory_path directory_page_title : string)
    (files : list string) : M W unit :=
  match files with
  | [] => ret tt
  | filename :: rest =>
      process_file directory_path directory_page_title filename ;;
      process_files directory_path directory_page_title rest
  end.

(** [files = [f for f in os.listdir(directory_path)
              if f.lower().endswith(ALL_SUPPORTED_EXTENSIONS)]] *)
Definition supported_files (names : list string) : list string :=
  filter (fun f => PyStr.endswith_any (PyStr.lower f) ALL_SUPPORTED_EXTENSIONS) names.

(** The requests issued between two states of a run. *)
Definition issued (before after : state W) : list request :=
  skipn (List.length (sent before)) (sent after).

(** The filenames announced by [Processing file: ...] lines. *)
Definition processed (lines : list line) : list string :=
  flat_map (fun l => match l with ProcessingFile f => [f] | _ => [] end) lines.

(** A program that prints, if anything, only lines other than
    [Processing file: ...]. *)
Definition quiet {A} (m : M W A) : Prop :=
  forall st, exists lines,
    printed (snd (m st)) = (printed st ++ lines)%list /\ processed lines = [].

End Client.

Arguments get_page_id_by_title {W} http cfg title.
Arguments new_page {W} http cfg title content parent.
Arguments upload_attachment_to_page {W} http cfg page_id filename file_bytes mime_type.
Arguments update_existing {W} http cfg title content parent_id page_id version.
Arguments create_new {W} http cfg title content parent_id.
Arguments issued {W} before after.
Arguments quiet {W A} m.

(** ** Sample data

    A configuration and canned answers for running the operations on the
    replaying transport: the parent title resolves to page 100; the title
    query returns a page of that title under page 200 and one under page
    100. *)

Module Demo.

Definition cfg : config :=
  mkConfig "https://wiki.example.com" "token" (Some "DS") (Some "Home") None.

Definition page (id parent : string) (version : Z) : json :=
  JObj [("id", JStr id);
        ("type", JStr "page");
        ("ancestors", JArr [JObj [("id", JStr "1")]; JObj [("id", JStr parent)]]);
        ("version", JObj [("number", JNum version)])].

Definition parent_found : response :=
  json_response 200 (result_list [JObj [("id", JStr "100")]]).

Definition none_found : response := json_response 200 (result_list []).

Definition under_other : json := page "7" "200" 3.
Definition under_parent_100 : json := page "8" "100" 5.

Definition two_pages : response :=
  json_response 200 (result_list [under_other; under_parent_100]).

Definition only_other : response := json_response 200 (result_list [under_other]).

Definition written : response :=
  json_response 200
    (JObj [("id", JStr "8"); ("_links", JObj [("webui", JStr "/display/DS/X")])]).

Definition conflict : response := mkResponse 409 "Version conflict" None.


Definition name_collision : response :=
  mkResponse 400 (same_file_name_message "plot.png") None.

Definition start (answers : list (result response)) : state (list (result response)) :=
  mkState answers [] [].

Definition updating : state (list (result response)) :=
  start [Ok parent_found; Ok two_pages; Ok written].

Definition update_rejected : state (list (result response)) :=
  start [Ok parent_found; Ok two_pages; Ok conflict].

Definition creating : state (list (result response)) :=
  start [Ok parent_found; Ok only_other; Ok written].


Definition unlocated : state (list (result response)) :=
  start [Ok name_collision; Ok none_found].

Definition first_bytes : list Byte.byte := [Byte.x89; Byte.x50].
Definition second_bytes : list Byte.byte := [Byte.x89; Byte.x4e; Byte.x47].

Definition empty_store : state platform := mkState empty_platform [] [].

(** A directory listing and a file system in which nothing can be read. *)
Definition listing : list string := ["a.ils"; "b.png"; "c.docx"; "d.txt"; "E.IL"].

Definition join (directory_path filename : string) : string :=
  directory_path ++ "/" ++ filename.

Definition no_ext (filename : string) : string * string := (filename, "").

Definition unreadable_text (file_path : string) : result string := Raise OSError.

Definition unreadable_bytes (file_path : string) : result (list Byte.byte) :=
  Raise OSError.

Definition no_guess (file_path : string) : option string := None.

(** No answer at all: every request fails with a connection error. *)
Definition offline : state (list (result response)) := start [].

End Demo.

(** ** More of the scripts *)

(** A request that changes the platform (anything but a GET). *)
Definition is_write (rq : request) : bool :=
  match req_method rq with
  | GET => false
  | POST | PUT => true
  end.

(** [confluence_automation.py], [create_confluence_automation_page]:
    [code = code.replace("&", "&amp;").replace("<", "&lt;").replace(">", "&gt;")] *)
Definition escape_markup (code : string) : string :=
  PyStr.replace ">" "&gt;" (PyStr.replace "<" "&lt;" (PyStr.replace "&" "&amp;" code)).

(** [code_block = f'<ac:structured-macro ac:name="code"><ac:plain-text-body>
    <![CDATA[{code}]]></ac:plain-text-body></ac:structured-macro>'] (one line in
    the source). *)
Definition code_block (code : string) : string :=
  "<ac:structured-macro ac:name=" ++ dq ++ "code" ++ dq ++ "><ac:plain-text-body>"
  ++ cdata_payload code ++ "</ac:plain-text-body></ac:structured-macro>".

(** [c in s] for a character [c]. *)
Fixpoint has_char (c : ascii) (s : string) : bool :=
  match s with
  | EmptyString => false
  | String d r => Ascii.eqb c d || has_char c r
  end.

(** More canned answers for the replaying transport. *)
Module Sample.

Definition forbidden : response := mkResponse 403 "Forbidden" None.

Definition login_page : response := mkResponse 200 "<html>Log in</html>" None.


(** A page under page 100 whose [version] is missing. *)
Definition unversioned : json :=
  JObj [("id", JStr "9");
        ("ancestors", JArr [JObj [("id", JStr "100")]])].

Definition unversioned_page : response :=
  json_response 200 (result_list [Demo.under_other; unversioned]).

Definition attachment_created : response :=
  json_response 200
    (result_list [JObj [("id", JStr "att1"); ("title", JStr "plot.png")]]).

Definition attachment_found : response :=
  json_response 200
    (result_list [JObj [("id", JStr "att1")]; JObj [("id", JStr "att2")]]).

Definition attachment_updated : response :=
  json_response 200 (JObj [("id", JStr "att1"); ("title", JStr "plot.png")]).

Definition too_large : response := mkResponse 413 "Request Entity Too Large" None.

Definition unconfigured_cfg : config :=
  mkConfig "https://wiki.example.com" "token" None (Some "Home") None.

End Sample.

(** ** Page bodies of the entry points *)

(** [upload_ils_folder.py], [upload_ils_directory]: [section_content]. *)
Definition section_content : string :=
  "
    <p>This section contains resources and libraries.</p>
    <ac:structured-macro ac:name=" ++
  dq ++ "children" ++ dq ++ " />
    ".

(** [container_content], with [directory_name] for
    [os.path.basename(directory_path)]. *)
Definition container_content (directory_name : string) : string :=
  "
    <p>This page contains resources imported from directory: <b>" ++
  directory_name ++ "</b></p>
    <p><i>Structure created by automation script.</i></p>
    
    <h3>Contents</h3>
    <ac:structured-macro ac:name=" ++
  dq ++ "children" ++ dq ++ " />
    ".

(** [upload_ils.py], [upload_skill_file]: [html_content]. *)
Definition skill_page (filename safe_content : string) : string :=
  "
    <p>This page documents the SKILL script <b>" ++ filename ++ "</b>.</p>
    
    <h3>File Attachment</h3>
    <p>
      <ac:link>
        <ri:attachment ri:filename=" ++
  dq ++ filename ++ dq ++ " />
        <ac:plain-text-link-body><![CDATA[Download " ++
  filename ++ "]]></ac:plain-text-link-body>
      </ac:link>
    </p>

    <h3>Source Code</h3>
    <ac:structured-macro ac:name=" ++
  dq ++ "code" ++ dq ++ ">
        <ac:parameter ac:name=" ++ dq ++
  "language" ++ dq ++ ">lisp</ac:parameter> 
        <ac:parameter ac:name=" ++
  dq ++ "linenumbers" ++ dq ++ ">true</ac:parameter>
        <ac:plain-text-body><![CDATA[" ++
  safe_content ++ "]]></ac:plain-text-body>
    </ac:structured-macro>
    ".

(** [confluence_automation.py], [create_confluence_automation_page]. *)
Definition disclaimer : string :=
  "<div style=" ++ dq ++
  "border:2px solid #c33; padding:10px; background:#fee; margin-bottom:10px;" ++
  dq ++
  "><b>DISCLAIMER:</b> This script was largely written by GitHub Copilot and is not optimized for production use. Review and adapt as needed.</div>".

Definition notice : string :=
  "<div style=" ++ dq ++
  "border:2px solid #36c; padding:10px; background:#eef; margin-bottom:20px;" ++
  dq ++
  "><b>NOTE:</b> This entire Confluence page was created and updated from Python using the script below. Do not modify manually in Confluence!</div>".

Definition instructions : string :=
  "
<h2>How to Generate a Confluence API Token</h2>
<p>To use this script, you need a Confluence API token. For enterprise Confluence, follow your organization's process or see the official documentation:<br/>
<a href='https://confluence.atlassian.com/enterprise/using-personal-access-tokens-1026032365.html#UsingPersonalAccessTokens-CreatingPATsintheapplication' target='_blank'>How to create a Personal Access Token in Confluence</a></p>
<ol>
  <li>Generate or obtain your Confluence API token using your enterprise Confluence UI or the link above.</li>
  <li>Set the following environment variables in your shell:<br/>
    <code>export CONFLUENCE_BASE_URL=your_confluence_url</code><br/>
    <code>export CONFLUENCE_USER_EMAIL=your_email</code><br/>
    <code>export CONFLUENCE_PAT=your_api_token</code><br/>
    <code>export CONFLUENCE_SPACE_KEY=your_space_key</code> <span style='color:#888'>(see below)</span><br/>
    <code>export CONFLUENCE_PARENT_TITLE=your_parent_page_title</code><br/>
    <span style='color:#888'>(Optional) <code>export CONFLUENCE_CERT_PATH=/path/to/certs</code></span>
  </li>
</ol>
<p>These variables are required for authenticating and configuring API requests from this script.</p>
<h3>How to find your <code>space_key</code></h3>
<p>The <b>space_key</b> is usually visible in the URL when viewing a Confluence page. For example, in a URL like:<br/>
<code>https://wiki.ith.intel.com/display/<b>DefmetYieldResources</b>/Confluence+Automation</code><br/>
The value after <code>/display/</code> and before the next <code>/</code> is your <b>space_key</b> (here: <code>DefmetYieldResources</code>).</p>
".

Definition example_usage : string :=
  "
<h2>How to Use This Script</h2>
<ol>
  <li>Copy the code above into a file named <code>confluence.py</code> on your machine.</li>
  <li>Make sure you have <b>Python 3</b> and the <b>requests</b> library installed.</li>
  <li>Set the required environment variables as shown above.</li>
  <li>Run the script:<br/>
      <code>python confluence.py</code></li>
</ol>
".

Definition uploading_img_html : string :=
  "<p><i>Uploading plot...</i></p>".

Definition attached_img_html : string :=
  "<ac:image><ri:attachment ri:filename=" ++ dq ++ "plot.png" ++ dq ++
  "/></ac:image>".

Definition sample_section (table_html img_html : string) : string :=
  "
<h2>Sample Data and Plot</h2>
<p>This section demonstrates embedding a pandas DataFrame as an HTML table and a matplotlib plot as an attachment image:</p>
<h3>Sample Data Table</h3>
" ++
  table_html ++ "
<h3>Sample Plot</h3>
" ++ img_html ++ "
".

Definition image_upload_explanation : string :=
  "
<h2>How Image Uploading Works</h2>
<p>This script demonstrates how to programmatically upload images to Confluence pages using the REST API. The process is as follows:</p>
<ol>
  <li><b>Generate the image</b> (e.g., a matplotlib plot) in Python and keep it in memory as PNG bytes.</li>
  <li><b>Create or update the Confluence page</b> to ensure it exists and obtain its page ID.</li>
  <li><b>Upload the image as an attachment</b> to the page using the <code>/rest/api/content/&lt;page_id&gt;/child/attachment</code> endpoint. This is done with a POST request containing the image file bytes and the <code>X-Atlassian-Token: no-check</code> header.</li>
  <li><b>Reference the uploaded image</b> in the page content using the <code>&lt;ac:image&gt;&lt;ri:attachment ri:filename=" ++
  dq ++ "plot.png" ++ dq ++
  "/&gt;&lt;/ac:image&gt;</code> macro, which tells Confluence to display the attached image inline.</li>
</ol>
<p>This approach is required because Confluence does not support inline base64-encoded images for security reasons. Images must be attached to the page and referenced by filename.</p>
".

Definition intro : string :=
  "
<h1>Confluence Automation Example</h1>
<p>This page demonstrates how to automate the creation and updating of Confluence pages using Python. It shows how to:
<ul>
  <li>Configure all settings via environment variables for portability</li>
  <li>Embed a pandas DataFrame as an HTML table</li>
  <li>Generate and upload a matplotlib plot as an image attachment</li>
  <li>Reference the uploaded image inline in the page</li>
  <li>Provide full usage instructions and code for reproducibility</li>
</ul>
This document and the code below are intended as a portable, self-contained example for automating Confluence content generation and image embedding.</p>
".

(** The body of the first upsert, with the placeholder for the plot. *)
Definition first_content (table_html code : string) : string :=
  disclaimer ++ notice ++ instructions
  ++ sample_section table_html uploading_img_html
  ++ "<h2>Script Source Code</h2>" ++ code_block code ++ example_usage.

(** The body of the second upsert, which references the attachment. *)
Definition final_content (table_html code : string) : string :=
  intro ++ disclaimer ++ notice ++ instructions ++ image_upload_explanation
  ++ sample_section table_html attached_img_html
  ++ "<h2>Script Source Code</h2>" ++ code_block code ++ example_usage.

(** ** The entry points

    The entry points print messages of their own around the operations
    they call.  Their console holds both: the lines the operations print
    and the notes of the entry points, in the order they are printed. *)

Inductive note : Type :=
| MissingEnvironment
| DirectoryNotFound (directory_path : string)
| StartingDirectoryUpload
| SourceDir (directory_path : string)
| SectionParent (section_parent_title : string)
| DirectoryPage (directory_page_title : string)
| GlobalParent (parent : option string)
| BannerRule
| EnsuringSectionParent (section_parent_title : string)
| CriticalSectionParent (e : exn)
| CreatingDirectoryPage (directory_page_title section_parent_title : string)
| CriticalDirectoryPage (e : exn)
| NoSupportedFiles
| FoundSupportedFiles (n : nat)
| BatchUploadComplete
| FileNotFound (file_path : string)
| ProcessingSkill (filename : string)
| TargetPage (page_title : string)
| ParentPage (parent : option string)
| ErrorReadingFile (e : exn)
| CreatingWrapper
| ErrorGettingPageId (e : exn)
| UploadingAttachment (filename : string)
| SkillAttachmentUploaded
| ErrorUploadingSkillAttachment (e : exn)
| Success (base_url space_key : option string) (page_path : string).

Inductive output : Type :=
| Line (l : line)        (* printed by an operation of [confluence_automation.py] *)
| Note (n : note).       (* printed by the entry point itself *)

Record script_state (W : Type) : Type := mkScript {
  platform_world : W;
  requests_sent : list request;
  console : list output
}.
Arguments mkScript {W}.
Arguments platform_world {W}.
Arguments requests_sent {W}.
Arguments console {W}.

Definition script (W A : Type) : Type := script_state W -> result A * script_state W.

Definition sret {W A} (a : A) : script W A := fun ss => (Ok a, ss).

Definition sbind {W A B} (m : script W A) (k : A -> script W B) : script W B :=
  fun ss =>
    match m ss with
    | (Ok a, ss') => k a ss'
    | (Raise e, ss') => (Raise e, ss')
    end.

(** [try: m  except Exception as e: ...] *)
Definition attempt {W A} (m : script W A) : script W (result A) :=
  fun ss => let (r, ss') := m ss in (Ok r, ss').

Definition slift {W A} (r : result A) : script W A := fun ss => (r, ss).

Definition say {W} (n : note) : script W unit :=
  fun ss => (Ok tt, mkScript (platform_world ss) (requests_sent ss) (console ss ++ [Note n])).

(** A call of an operation: it runs on the world and the requests so far,
    and what it prints goes to the console. *)
Definition call {W A} (m : M W A) : script W A :=
  fun ss =>
    let (r, st) := m (mkState (platform_world ss) (requests_sent ss) []) in
    (r, mkScript (world st) (sent st) (console ss ++ map Line (printed st))).

Declare Scope script_scope.
Delimit Scope script_scope with script.
Notation "x <- m ;; k" := (sbind m (fun x => k))
  (at level 61, m at next level, right associativity) : script_scope.
Notation "m ;; k" := (sbind m (fun _ => k))
  (at level 61, right associativity) : script_scope.

(** The files the console shows as processed. *)
Definition announced (lines : list output) : list string :=
  flat_map (fun o => match o with Line (ProcessingFile f) => [f] | _ => [] end) lines.

(** The requests an entry point issued between two states. *)
Definition requested {W} (before after : script_state W) : list request :=
  skipn (List.length (requests_sent before)) (requests_sent after).

Section Scripts.

Variable W : Type.
Variable http : transport W.
Variable cfg : config.

(** The operating system and the libraries, as the scripts use them. *)
Variable os_path_exists : string -> bool.
Variable os_path_basename : string -> string.
Variable os_path_join : string -> string -> string.
Variable os_path_splitext : string -> string * string.
Variable os_listdir : string -> result (list string).
Variable os_environ_get : string -> option string.
Variable read_text : string -> result string.
Variable read_bytes : string -> result (list Byte.byte).
Variable guess_type : string -> option string.

Local Open Scope script_scope.

(** [upload_ils_folder.py], [upload_ils_directory]. *)
Definition upload_ils_directory
    (directory_path directory_page_title section_parent_title : string)
    : script W unit :=
  if negb (os_path_exists directory_path)
  then say (DirectoryNotFound directory_path)
  else
    say StartingDirectoryUpload ;;
    say (SourceDir directory_path) ;;
    say (SectionParent section_parent_title) ;;
    say (DirectoryPage directory_page_title) ;;
    say (GlobalParent (PARENT_PAGE_TITLE cfg)) ;;
    say BannerRule ;;
    say (EnsuringSectionParent section_parent_title) ;;
    ensured <- attempt (call (new_page http cfg section_parent_title section_content
                                (PARENT_PAGE_TITLE cfg))) ;;
    match ensured with
    | Raise e => say (CriticalSectionParent e)
    | Ok _ =>
        let container := container_content (os_path_basename directory_path) in
        say (CreatingDirectoryPage directory_page_title section_parent_title) ;;
        created <- attempt (call (new_page http cfg directory_page_title container
                                    (Some section_parent_title))) ;;
        match created with
        | Raise e => say (CriticalDirectoryPage e)
        | Ok _ =>
            names <- slift (os_listdir directory_path) ;;
            let files := supported_files names in
            match files with
            | [] => say NoSupportedFiles
            | _ :: _ =>
                say (FoundSupportedFiles (List.length files)) ;;
                call (process_files W http cfg os_path_join os_path_splitext read_text
                        read_bytes guess_type directory_path directory_page_title files) ;;
                say BatchUploadComplete
            end
        end
    end.

(** [page_title.replace(' ', '+')] in the address the success line shows. *)
Definition page_path (page_title : string) : string := PyStr.replace " " "+" page_title.

(** [upload_ils.py], [upload_skill_file]; [page_title] is [None] by
    default. *)
Definition upload_skill_file (file_path : string) (page_title : option string)
    : script W unit :=
  if negb (os_path_exists file_path)
  then say (FileNotFound file_path)
  else
    let filename := os_path_basename file_path in
    let page_title :=
      match page_title with
      | Some t => if String.eqb t "" then filename else t
      | None => filename
      end in
    say (ProcessingSkill filename) ;;
    say (TargetPage page_title) ;;
    say (ParentPage (PARENT_PAGE_TITLE cfg)) ;;
    match read_text file_path with
    | Raise e => say (ErrorReadingFile e)
    | Ok file_content =>
        let html_content := skill_page filename (skill_safe_content file_content) in
        say CreatingWrapper ;;
        call (new_page http cfg page_title html_content (PARENT_PAGE_TITLE cfg)) ;;
        looked_up <- attempt (call (get_page_id_by_title http cfg (Some page_title))) ;;
        match looked_up with
        | Raise e => say (ErrorGettingPageId e)
        | Ok page_id =>
            say (UploadingAttachment filename) ;;
            file_bytes <- slift (read_bytes file_path) ;;
            uploaded <- attempt (call (upload_attachment_to_page http cfg page_id filename
                                         file_bytes "text/plain")) ;;
            match uploaded with
            | Ok _ => say SkillAttachmentUploaded
            | Raise e => say (ErrorUploadingSkillAttachment e)
            end ;;
            say (Success (os_environ_get "CONFLUENCE_BASE_URL")
                   (os_environ_get "CONFLUENCE_SPACE_KEY") (page_path page_title))
        end
    end.

(** [all([CONFLUENCE_BASE_URL, API_TOKEN, SPACE_KEY, PARENT_PAGE_TITLE])] *)
Definition environment_complete : bool :=
  negb (String.eqb (CONFLUENCE_BASE_URL cfg) "")
  && negb (String.eqb (API_TOKEN cfg) "")
  && nonempty (SPACE_KEY cfg)
  && nonempty (PARENT_PAGE_TITLE cfg).

(** What the script reads of itself and gets from [pandas] and
    [matplotlib]: [open(__file__).read()] and the pair
    [generate_sample_data_and_plot()] returns. *)
Variable read_own_source : result string.
Variable table_html : string.
Variable img_bytes : list Byte.byte.

Definition PAGE_TITLE : string := "Confluence Automation".

(** [confluence_automation.py], [create_confluence_automation_page]. *)
Definition create_confluence_automation_page : script W unit :=
  if negb environment_complete
  then say MissingEnvironment
  else
    source <- slift read_own_source ;;
    let code := escape_markup source in
    call (new_page http cfg PAGE_TITLE (first_content table_html code)
            (PARENT_PAGE_TITLE cfg)) ;;
    page_id <- call (get_page_id_by_title http cfg (Some PAGE_TITLE)) ;;
    _ <- call (upload_attachment_to_page http cfg page_id "plot.png" img_bytes "image/png") ;;
    call (new_page http cfg PAGE_TITLE (final_content table_html code)
            (PARENT_PAGE_TITLE cfg)).

End Scripts.

Arguments upload_ils_directory {W} http cfg os_path_exists os_path_basename os_path_join
  os_path_splitext os_listdir read_text read_bytes guess_type
  directory_path directory_page_title section_parent_title.
Arguments upload_skill_file {W} http cfg os_path_exists os_path_basename os_environ_get
  read_text read_bytes file_path page_title.
Arguments create_confluence_automation_page {W} http cfg read_own_source table_html img_bytes.

(** A file system and start states for running the entry points on the
    replaying transport. *)
Module Fixture.

Definition present (path : string) : bool := true.
Definition absent (path : string) : bool := false.
Definition basename (path : string) : string := path.
Definition join (directory_path filename : string) : string :=
  directory_path ++ "/" ++ filename.
Definition ils_ext (filename : string) : string * string := (filename, ".ILS").
Definition listing (directory_path : string) : result (list string) := Ok Demo.listing.
Definition environ (name : string) : option string := None.
Definition text (file_path : string) : result string := Ok "(when x ]]> y)".
Definition bytes (file_path : string) : result (list Byte.byte) := Ok Demo.first_bytes.
Definition no_guess (file_path : string) : option string := None.

Definition start (answers : list (result response))
    : script_state (list (result response)) :=
  mkScript answers [] [].

(** Nobody answers. *)
Definition offline : script_state (list (result response)) := start [].

(** The first request fails, the second resolves a title to page 100, and
    nobody answers after that. *)
Definition one_lookup : script_state (list (result response)) :=
  start [Raise ConnectionError; Ok Demo.parent_found].

(** Only the first request is answered, with a failure. *)
Definition first_fails : script_state (list (result response)) :=
  start [Raise ConnectionError].

End Fixture.

(** * Properties *)

(** ** The CDATA escaping *)

Section Cdata.

Lemma escape_cdata_hit (r : string) :
  escape_cdata (CDATA_END ++ r) = CDATA_END_ESCAPED ++ escape_cdata r.
Proof. reflexivity. Qed.

Lemma escape_cdata_miss (c : ascii) (r : string) :
  PyStr.startswith CDATA_END (String c r) = false ->
  escape_cdata (String c r) = String c (escape_cdata r).
Proof.
  intros H. unfold escape_cdata, PyStr.replace.
  cbn [PyStr.replace_from]. rewrite H. reflexivity.
Qed.

Lemma prefix_cdata_end (s : string) :
  PyStr.startswith CDATA_END s = true -> exists r, s = CDATA_END ++ r.
Proof.
  unfold CDATA_END.
  destruct s as [|a [|b [|c r]]]; cbn [PyStr.startswith]; try discriminate;
    repeat (match goal with
            | |- context [Ascii.eqb ?x ?y] => destruct (Ascii.eqb_spec x y)
            end; try discriminate).
  intros _. subst. exists r. reflexivity.
Qed.

(** Whether []]>] starts a string depends on its first three characters
    only. *)
Lemma prefix_cdata_end_3 (a b c : ascii) (x y : string) :
  PyStr.startswith CDATA_END (String a (String b (String c x)))
  = PyStr.startswith CDATA_END (String a (String b (String c y))).
Proof.
  unfold CDATA_END. cbn [PyStr.startswith].
  repeat (match goal with
          | |- context [Ascii.eqb ?u ?v] => destruct (Ascii.eqb u v)
          end; try reflexivity).
Qed.

(** Escaping keeps the first two characters. *)
Lemma escape_cdata_head (c : ascii) (r : string) :
  exists u, escape_cdata (String c r) = String c u.
Proof.
  destruct (PyStr.startswith CDATA_END (String c r)) eqn:E.
  - destruct (prefix_cdata_end _ E) as [r' Hr]. rewrite Hr.
    rewrite escape_cdata_hit. injection Hr as -> _. eexists. reflexivity.
  - rewrite (escape_cdata_miss _ _ E). eexists. reflexivity.
Qed.

Lemma escape_cdata_head2 (c d : ascii) (r : string) :
  exists u, escape_cdata (String c (String d r)) = String c (String d u).
Proof.
  destruct (PyStr.startswith CDATA_END (String c (String d r))) eqn:E.
  - destruct (prefix_cdata_end _ E) as [r' Hr]. rewrite Hr.
    rewrite escape_cdata_hit. injection Hr as -> -> _. eexists. reflexivity.
  - rewrite (escape_cdata_miss _ _ E).
    destruct (escape_cdata_head d r) as [u ->]. eexists. reflexivity.
Qed.

Lemma escape_cdata_single (d : ascii) : escape_cdata (String d "") = String d "".
Proof.
  apply escape_cdata_miss. unfold CDATA_END. cbn [PyStr.startswith].
  apply andb_false_r.
Qed.

(** A character that does not start []]>] in the source does not start it
    in the escaped payload either. *)
Lemma no_early_end (c : ascii) (r : string) :
  PyStr.startswith CDATA_END (String c r) = false ->
  PyStr.startswith CDATA_END (String c (escape_cdata r ++ CDATA_END)) = false.
Proof.
  intros H. destruct r as [|d [|e r]].
  - change (escape_cdata "") with "". unfold CDATA_END.
    cbn [PyStr.startswith append].
    destruct (Ascii.eqb "]" c); reflexivity.
  - rewrite escape_cdata_single. unfold CDATA_END.
    cbn [PyStr.startswith append].
    destruct (Ascii.eqb "]" c); [|reflexivity].
    destruct (Ascii.eqb "]" d); reflexivity.
  - destruct (escape_cdata_head2 d e r) as [u ->].
    cbn [append]. rewrite <- H. apply prefix_cdata_end_3.
Qed.

Lemma cdata_text_escaped_end (t : string) :
  cdata_text_from true 0 (CDATA_END_ESCAPED ++ t)
  = option_map (append CDATA_END) (cdata_text_from true 0 t).
Proof.
  cbn. destruct (cdata_text_from true 0 t); reflexivity.
Qed.

Lemma cdata_text_inside (n : nat) :
  forall s, String.length s <= n ->
  cdata_text_from true 0 (escape_cdata s ++ CDATA_END) = Some s.
Proof.
  induction n as [|n IH]; intros s Hn.
  - destruct s; [reflexivity | cbn in Hn; lia].
  - destruct s as [|c r]; [reflexivity|].
    destruct (PyStr.startswith CDATA_END (String c r)) eqn:E.
    + destruct (prefix_cdata_end _ E) as [r' Hr]. rewrite Hr.
      rewrite escape_cdata_hit.
      replace ((CDATA_END_ESCAPED ++ escape_cdata r') ++ CDATA_END)
        with (CDATA_END_ESCAPED ++ (escape_cdata r' ++ CDATA_END)) by reflexivity.
      rewrite cdata_text_escaped_end, IH; [reflexivity|].
      rewrite Hr in Hn. cbn in Hn. lia.
    + rewrite (escape_cdata_miss _ _ E).
      cbn [append cdata_text_from].
      rewrite (no_early_end _ _ E).
      rewrite IH; [reflexivity|]. cbn in Hn. lia.
Qed.

End Cdata.

Section CdataRoundTrip.

Example escape_plain : escape_cdata "(println 1)" = "(println 1)".
Proof. reflexivity. Qed.

Example escape_one : escape_cdata "a]]>b" = "a]]]]><![CDATA[>b".
Proof. reflexivity. Qed.

Example escape_overlap :
  escape_cdata "]]]>]]>" = "]]]]]><![CDATA[>]]]]><![CDATA[>".
Proof. reflexivity. Qed.

(** Left unescaped, the source's []]>] ends the section early and the
    payload is no longer a run of complete sections. *)
Example decode_unescaped : cdata_text (cdata_payload "a]]>b") = None.
Proof. reflexivity. Qed.

(** C8. For every source text, the payload [<![CDATA[ escaped ]]>] built
    from the escaped text (every []]>] replaced by []]]]><![CDATA[>]) reads
    back, section by section, as the source text itself: the source's
    []]>] are literal text and escape-then-decode is the identity. *)
Theorem cdata_round_trip (raw_content : string) :
  cdata_text (cdata_payload (escape_cdata raw_content)) = Some raw_content.
Proof.
  unfold cdata_text, cdata_payload.
  change (cdata_text_from false 0 (CDATA_OPEN ++ escape_cdata raw_content ++ CDATA_END))
    with (cdata_text_from true 0 (escape_cdata raw_content ++ CDATA_END)).
  apply (cdata_text_inside (String.length raw_content)). lia.
Qed.

(** In [upload_skill_file] the text that is escaped, and read back, is the
    file content with its line endings normalised. *)
Corollary skill_round_trip (file_content : string) :
  cdata_text (cdata_payload (skill_safe_content file_content))
  = Some (PyStr.replace CRLF LF file_content).
Proof. apply cdata_round_trip. Qed.

End CdataRoundTrip.

(** ** Subscripting *)

Section Subscripts.

Lemma position_first (n : nat) : Py.position (S n) 0 = Some 0.
Proof.
  unfold Py.position. cbn [Z.ltb Z.compare Z.leb andb].
  replace (0 <? Z.of_nat (S n))%Z with true; [reflexivity|].
  symmetry. apply Z.ltb_lt. lia.
Qed.

Lemma position_last (n : nat) : Py.position (S n) (-1) = Some n.
Proof.
  unfold Py.position. cbn [Z.ltb Z.compare].
  replace (0 <=? -1 + Z.of_nat (S n))%Z with true
    by (symmetry; apply Z.leb_le; lia).
  replace (-1 + Z.of_nat (S n) <? Z.of_nat (S n))%Z with true
    by (symmetry; apply Z.ltb_lt; lia).
  cbn [andb]. f_equal. lia.
Qed.


Lemma getindex_first (x : json) (xs : list json) : Py.getindex (JArr (x :: xs)) 0 = Ok x.
Proof.
  unfold Py.getindex. cbn [List.length]. rewrite position_first. reflexivity.
Qed.

End Subscripts.

(** ** The page upsert *)

Section ClientFacts.

Variable W : Type.
Variable http : transport W.
Variable cfg : config.

Lemma issued_app (st st' : state W) (l : list request) :
  sent st' = (sent st ++ l)%list -> issued st st' = l.
Proof.
  intros H. unfold issued. rewrite H, skipn_app, skipn_all, Nat.sub_diag.
  reflexivity.
Qed.

(** [get_page_id_by_title] sends its query or nothing. *)
Lemma get_page_id_by_title_sent (title : option string) (st : state W) :
  let st1 := snd (get_page_id_by_title http cfg title st) in
  sent st1 = sent st \/ sent st1 = (sent st ++ [lookup_query cfg title])%list.
Proof.
  unfold get_page_id_by_title, bind, send, raise, lift, print.
  destruct (unconfigured cfg); [left; reflexivity|].
  destruct (http _ _) as [[response|e] w1]; [|right; reflexivity].
  destruct (negb _); [right; reflexivity|].
  destruct (json_body response) as [data|]; [|right; reflexivity].
  unfold ret. destruct (Py.getitem data "size") as [size|]; [|right; reflexivity].
  destruct (Py.equal size (JNum 0)); right; reflexivity.
Qed.

Lemma new_page_after_lookup (title content : string) (parent : option string)
    (st st1 : state W) (parent_id : json) (resp : response) (w2 : W) :
  get_page_id_by_title http cfg parent st = (Ok parent_id, st1) ->
  http (existence_query cfg title) (world st1) = (Ok resp, w2) ->
  new_page http cfg title content parent st =
    let st2 := mkState w2 (sent st1 ++ [existence_query cfg title]) (printed st1) in
    match existing_page parent_id resp with
    | Ok (Some (page_id, version)) =>
        update_existing http cfg title content parent_id page_id version st2
    | Ok None => create_new http cfg title content parent_id st2
    | Raise e => (Raise e, st2)
    end.
Proof.
  intros H1 H2. unfold new_page, bind, try. rewrite H1.
  unfold send. rewrite H2. unfold lift.
  destruct (existing_page parent_id resp) as [[[page_id version]|]|e]; reflexivity.
Qed.

Lemma update_existing_sent (title content : string) (parent_id page_id version : json)
    (st : state W) :
  sent (snd (update_existing http cfg title content parent_id page_id version st))
  = (sent st ++ [put_request cfg page_id
                   (update_payload cfg page_id title content parent_id version)])%list.
Proof.
  unfold update_existing, bind, send, print_failure, bind, print, lift.
  destruct (http _ _) as [[response|e] w3]; [|reflexivity].
  destruct (status_code response =? 200)%Z; [|reflexivity].
  cbn. destruct (webui_url cfg response); reflexivity.
Qed.

Lemma create_new_sent (title content : string) (parent_id : json) (st : state W) :
  sent (snd (create_new http cfg title content parent_id st))
  = (sent st ++ [post_request cfg (create_payload cfg title content parent_id)])%list.
Proof.
  unfold create_new, bind, send, print_failure, bind, print, lift.
  destruct (http _ _) as [[response|e] w3]; [|reflexivity].
  destruct (_ || _); [|reflexivity].
  cbn. destruct (webui_url cfg response); reflexivity.
Qed.

(** What the scan's test establishes. *)
Lemma under_parent_true (parent_id candidate : json) :
  under_parent parent_id candidate = Ok true ->
  exists id, last_ancestor_id candidate = Ok id /\ Py.equal id parent_id = true.
Proof.
  unfold under_parent, last_ancestor_id, rbind.
  destruct (Py.get candidate "ancestors" (JArr [])) as [ancestors|]; [|discriminate].
  destruct (Py.truthy ancestors); [|discriminate].
  destruct (Py.getindex ancestors (-1)) as [last|]; [|discriminate].
  destruct (Py.getitem last "id") as [id|]; [|discriminate].
  intros [= H]. exists id. split; [reflexivity | exact H].
Qed.

Lemma find_existing_sound (parent_id : json) (items : list json) (target : json * json) :
  find_existing parent_id items = Ok (Some target) ->
  exists candidate,
    In candidate items /\ under_parent parent_id candidate = Ok true /\
    target_of candidate = Ok target.
Proof.
  induction items as [|c rest IH]; [discriminate|].
  cbn [find_existing]. unfold rbind at 1.
  destruct (under_parent parent_id c) as [[|]|] eqn:E; [| |discriminate].
  - unfold rbind. destruct (target_of c) as [t|] eqn:T; [|discriminate].
    intros [= <-]. exists c. repeat split; [left; reflexivity | exact E | exact T].
  - intros H. destruct (IH H) as (c' & Hin & Hc').
    exists c'. split; [right; exact Hin | exact Hc'].
Qed.

Lemma existing_page_sound (parent_id : json) (resp : response) (target : json * json) :
  existing_page parent_id resp = Ok (Some target) ->
  exists items candidate,
    result_items resp = Ok items /\ In candidate items /\
    under_parent parent_id candidate = Ok true /\ target_of candidate = Ok target.
Proof.
  unfold existing_page. destruct (status_code resp =? 200)%Z; [|discriminate].
  unfold rbind. destruct (result_items resp) as [items|]; [|discriminate].
  intros H. destruct (find_existing_sound _ _ _ H) as (c & Hc).
  exists items, c. split; [reflexivity | exact Hc].
Qed.

Lemma target_of_id (candidate : json) (page_id version : json) :
  target_of candidate = Ok (page_id, version) ->
  Py.getitem candidate "id" = Ok page_id.
Proof.
  unfold target_of, rbind.
  destruct (Py.getitem candidate "id") as [i|]; [|discriminate].
  destruct (Py.getitem candidate "version") as [v|]; [|discriminate].
  destruct (Py.getitem v "number") as [n|]; [|discriminate].
  destruct (Py.add_one n); [|discriminate].
  intros [= -> _]. reflexivity.
Qed.

Lemma new_page_lookup_failed (title content : string) (parent : option string)
    (st st1 : state W) (e : exn) :
  get_page_id_by_title http cfg parent st = (Raise e, st1) ->
  new_page http cfg title content parent st
  = (Ok tt, mkState (world st1) (sent st1)
              (printed st1 ++ [ErrorFindingParent parent e])).
Proof.
  intros H. unfold new_page, bind, try. rewrite H. reflexivity.
Qed.

Lemma new_page_query_failed (title content : string) (parent : option string)
    (st st1 : state W) (parent_id : json) (e : exn) (w2 : W) :
  get_page_id_by_title http cfg parent st = (Ok parent_id, st1) ->
  http (existence_query cfg title) (world st1) = (Raise e, w2) ->
  new_page http cfg title content parent st
  = (Raise e, mkState w2 (sent st1 ++ [existence_query cfg title]) (printed st1)).
Proof.
  intros H1 H2. unfold new_page, bind, try. rewrite H1.
  unfold send. rewrite H2. reflexivity.
Qed.

Lemma get_page_id_by_title_ok_sent (title : option string) (st st1 : state W)
    (id : json) :
  get_page_id_by_title http cfg title st = (Ok id, st1) ->
  sent st1 = (sent st ++ [lookup_query cfg title])%list.
Proof.
  unfold get_page_id_by_title, bind, send, raise, lift, print, ret.
  destruct (unconfigured cfg); [discriminate|].
  destruct (http _ _) as [[response|e] w1]; [|discriminate].
  destruct (negb _); [discriminate|].
  destruct (json_body response) as [data|]; [|discriminate].
  destruct (Py.getitem data "size") as [size|]; [|discriminate].
  destruct (Py.equal size (JNum 0)); [discriminate|].
  intros [= _ <-]. reflexivity.
Qed.



Lemma find_existing_first (parent_id : json) (before after : list json)
    (candidate : json) :
  Forall (fun c => under_parent parent_id c = Ok false) before ->
  under_parent parent_id candidate = Ok true ->
  find_existing parent_id (before ++ candidate :: after)
  = (target <- target_of candidate ;; Ok (Some target))%result.
Proof.
  intros Hb Hc. induction Hb as [|c rest Hc' _ IH].
  - cbn [app find_existing]. rewrite Hc. reflexivity.
  - cbn [app find_existing]. rewrite Hc'. exact IH.
Qed.

(** C1. Every PUT that [new_page] issues goes to the id of a candidate of
    the existence query's result list whose last ancestor id equals the id
    the parent title resolved to; a returned candidate whose last ancestor
    id differs from it (a page of the same title under another parent) is
    never the one selected. *)
Theorem new_page_update_target (title content : string) (parent : option string)
    (st : state W) (rq : request) :
  In rq (issued st (snd (new_page http cfg title content parent st))) ->
  req_method rq = PUT ->
  exists parent_id st1 resp w2 items candidate last_id page_id,
    get_page_id_by_title http cfg parent st = (Ok parent_id, st1) /\
    http (existence_query cfg title) (world st1) = (Ok resp, w2) /\
    result_items resp = Ok items /\
    In candidate items /\
    last_ancestor_id candidate = Ok last_id /\
    Py.equal last_id parent_id = true /\
    Py.getitem candidate "id" = Ok page_id /\
    req_path rq = ContentId page_id /\
    (forall other other_parent,
        last_ancestor_id other = Ok other_parent ->
        Py.equal other_parent parent_id = false ->
        candidate <> other).
Proof.
  intros Hin Hput.
  pose proof (get_page_id_by_title_sent parent st) as Hsent. cbv zeta in Hsent.
  destruct (get_page_id_by_title http cfg parent st) as [[parent_id|e] st1] eqn:H1;
    cbn [snd] in Hsent.
  2:{ (* the parent was not resolved: nothing but the lookup was sent *)
    rewrite (new_page_lookup_failed title content parent st st1 e H1) in Hin.
    cbn [snd] in Hin. exfalso.
    destruct Hsent as [Hs|Hs].
    - rewrite (issued_app st _ []) in Hin; [destruct Hin|].
      cbn [sent]. rewrite Hs, app_nil_r. reflexivity.
    - rewrite (issued_app st _ [lookup_query cfg parent]) in Hin by exact Hs.
      destruct Hin as [<-|[]]. discriminate. }
  assert (Hget : forall l,
             In rq l -> (forall r, In r l -> req_method r = GET) -> False).
  { intros l Hl Hall. rewrite (Hall rq Hl) in Hput. discriminate. }
  assert (Hprefix : exists pre,
             sent st1 = (sent st ++ pre)%list /\
             forall r, In r pre -> req_method r = GET).
  { destruct Hsent as [Hs|Hs].
    - exists []. rewrite app_nil_r. split; [exact Hs | intros r []].
    - exists [lookup_query cfg parent]. split; [exact Hs|].
      intros r [<-|[]]. reflexivity. }
  destruct Hprefix as (pre & Hpre & Hpre_get).
  destruct (http (existence_query cfg title) (world st1)) as [[resp|e] w2] eqn:H2.
  2:{ rewrite (new_page_query_failed title content parent st st1 parent_id e w2 H1 H2)
        in Hin. cbn [snd] in Hin. exfalso.
      rewrite (issued_app st _ (pre ++ [existence_query cfg title])) in Hin.
      - apply (Hget _ Hin). intros r Hr. apply in_app_or in Hr.
        destruct Hr as [Hr|[<-|[]]]; [apply Hpre_get; exact Hr | reflexivity].
      - cbn [sent]. rewrite Hpre, <- app_assoc. reflexivity. }
  rewrite (new_page_after_lookup title content parent st st1 parent_id resp w2 H1 H2)
    in Hin. cbv zeta in Hin.
  destruct (existing_page parent_id resp) as [[[page_id version]|]|e] eqn:E.
  - (* update *)
    destruct (existing_page_sound _ _ _ E) as (items & candidate & Hi & Hc & Hu & Ht).
    destruct (under_parent_true _ _ Hu) as (last_id & Hl & Heq).
    exists parent_id, st1, resp, w2, items, candidate, last_id, page_id.
    repeat (split; [first [reflexivity | assumption | eapply target_of_id; eassumption]|]).
    split.
    + rewrite (issued_app st _
                 (pre ++ [existence_query cfg title;
                          put_request cfg page_id
                            (update_payload cfg page_id title content parent_id version)]))
        in Hin.
      * apply in_app_or in Hin.
        destruct Hin as [Hr|[<-|[<-|[]]]]; [| discriminate | reflexivity].
        rewrite (Hpre_get rq Hr) in Hput. discriminate.
      * rewrite update_existing_sent. cbn [sent].
        rewrite Hpre, <- !app_assoc. reflexivity.
    + intros other other_parent Ho Hne ->.
      rewrite Ho in Hl. injection Hl as ->. rewrite Heq in Hne. discriminate.
  - (* create *)
    exfalso.
    rewrite (issued_app st _
               (pre ++ [existence_query cfg title;
                        post_request cfg (create_payload cfg title content parent_id)]))
      in Hin.
    + apply in_app_or in Hin.
      destruct Hin as [Hr|[<-|[<-|[]]]]; [| discriminate | discriminate].
      rewrite (Hpre_get rq Hr) in Hput. discriminate.
    + rewrite create_new_sent. cbn [sent]. rewrite Hpre, <- !app_assoc. reflexivity.
  - (* the scan raised *)
    exfalso. cbn [snd] in Hin.
    rewrite (issued_app st _ (pre ++ [existence_query cfg title])) in Hin.
    + apply (Hget _ Hin). intros r Hr. apply in_app_or in Hr.
      destruct Hr as [Hr|[<-|[]]]; [apply Hpre_get; exact Hr | reflexivity].
    + cbn [sent]. rewrite Hpre, <- app_assoc. reflexivity.
Qed.

(** ** Title resolution *)

Lemma get_page_id_by_title_answered (title : option string) (st : state W)
    (response : response) (w1 : W) (data : json) (size : json) :
  unconfigured cfg = false ->
  http (lookup_query cfg title) (world st) = (Ok response, w1) ->
  status_code response = 200%Z ->
  json_body response = Some data ->
  Py.getitem data "size" = Ok size ->
  get_page_id_by_title http cfg title st =
    (if Py.equal size (JNum 0)
     then Raise (Exception (NoPageFound title (SPACE_KEY cfg)))
     else (results <- Py.getitem data "results" ;;
           first <- Py.getindex results 0 ;;
           Py.getitem first "id")%result,
     mkState w1 (sent st ++ [lookup_query cfg title]) (printed st)).
Proof.
  intros Hc Hh Hs Hj Hz.
  unfold get_page_id_by_title, bind, send, raise, lift, ret.
  rewrite Hc, Hh, Hs. cbn [Z.eqb Pos.eqb negb].
  rewrite Hj, Hz. destruct (Py.equal size (JNum 0)); reflexivity.
Qed.

(** C7. When the title and space query returns a result set (status 200,
    a body whose [size] counts its [results]), [get_page_id_by_title]
    raises the "No page found" exception exactly when the result set is
    empty, and otherwise yields the [id] of the first element of the
    result list; on an empty result set it returns no value at all. *)
Theorem get_page_id_by_title_result_set (title : option string) (st : state W)
    (response : response) (w1 : W) (data : json) (items : list json) :
  unconfigured cfg = false ->
  http (lookup_query cfg title) (world st) = (Ok response, w1) ->
  status_code response = 200%Z ->
  json_body response = Some data ->
  Py.getitem data "size" = Ok (JNum (Z.of_nat (List.length items))) ->
  Py.getitem data "results" = Ok (JArr items) ->
  let outcome := fst (get_page_id_by_title http cfg title st) in
  (outcome = Raise (Exception (NoPageFound title (SPACE_KEY cfg))) <-> items = []) /\
  (forall first rest, items = first :: rest -> outcome = Py.getitem first "id") /\
  (items = [] -> forall id, outcome <> Ok id).
Proof.
  intros Hc Hh Hs Hj Hz Hr outcome. subst outcome.
  rewrite (get_page_id_by_title_answered title st response w1 data _ Hc Hh Hs Hj Hz).
  cbn [fst]. rewrite Hr. destruct items as [|first rest].
  - cbn. repeat split; intros; discriminate.
  - replace (Py.equal (JNum (Z.of_nat (List.length (first :: rest)))) (JNum 0))
      with false.
    2:{ symmetry. cbn [Py.equal List.length]. apply Z.eqb_neq. lia. }
    cbn [rbind]. rewrite getindex_first.
    split; [|split].
    + split; [intros H | discriminate]. exfalso.
      cbn [rbind] in H. unfold Py.getitem in H.
      destruct first; try discriminate H.
      destruct (Py.assoc "id" kvs); discriminate H.
    + intros f r [= <- _]. reflexivity.
    + discriminate.
Qed.

(** ** Update or create *)




(** ** Outcome of the write *)

Lemma update_existing_answered (title content : string)
    (parent_id page_id version : json) (st : state W) (response : response) (w3 : W) :
  let write := put_request cfg page_id
                 (update_payload cfg page_id title content parent_id version) in
  http write (world st) = (Ok response, w3) ->
  update_existing http cfg title content parent_id page_id version st =
    let st3 lines := mkState w3 (sent st ++ [write]) (printed st ++ lines) in
    if (status_code response =? 200)%Z
    then match webui_url cfg response with
         | Ok u => (Ok tt, st3 [PageUpdated; Url u])
         | Raise e => (Raise e, st3 [PageUpdated])
         end
    else (Ok tt, st3 [FailedToUpdatePage; StatusCode (status_code response);
                      ResponseText (text response)]).
Proof.
  intros write H. unfold update_existing, bind, send, print_failure, bind, print, lift.
  fold write. rewrite H.
  destruct (status_code response =? 200)%Z; cbn [world sent printed].
  - destruct (webui_url cfg response); rewrite <- ?app_assoc; reflexivity.
  - rewrite <- !app_assoc. reflexivity.
Qed.

Lemma create_new_answered (title content : string) (parent_id : json)
    (st : state W) (response : response) (w3 : W) :
  let write := post_request cfg (create_payload cfg title content parent_id) in
  http write (world st) = (Ok response, w3) ->
  create_new http cfg title content parent_id st =
    let st3 lines := mkState w3 (sent st ++ [write]) (printed st ++ lines) in
    if Py.in_200_201 (status_code response)
    then match webui_url cfg response with
         | Ok u => (Ok tt, st3 [PageCreated; Url u])
         | Raise e => (Raise e, st3 [PageCreated])
         end
    else (Ok tt, st3 [FailedToCreatePage; StatusCode (status_code response);
                      ResponseText (text response)]).
Proof.
  intros write H. unfold create_new, bind, send, print_failure, bind, print, lift.
  fold write. rewrite H. unfold Py.in_200_201.
  destruct (_ || _); cbn [world sent printed].
  - destruct (webui_url cfg response); rewrite <- ?app_assoc; reflexivity.
  - rewrite <- !app_assoc. reflexivity.
Qed.

(** C4, as the code has it.  When the write is answered with a status
    other than 200 (update) or other than 200 and 201 (create), [new_page]
    prints the failure line, the status code and the response body and
    returns normally; nothing is raised.  When the write succeeds and the
    body carries [_links.webui], it prints the success line and the URL
    [CONFLUENCE_BASE_URL + webui] and returns normally, with no value. *)
Theorem new_page_write_outcome (title content : string) (parent : option string)
    (st st1 : state W) (parent_id : json) (resp : response) (w2 : W)
    (existing : option (json * json)) (response : response) (w3 : W) :
  get_page_id_by_title http cfg parent st = (Ok parent_id, st1) ->
  http (existence_query cfg title) (world st1) = (Ok resp, w2) ->
  existing_page parent_id resp = Ok existing ->
  let write :=
    match existing with
    | Some (page_id, version) =>
        put_request cfg page_id (update_payload cfg page_id title content parent_id version)
    | None => post_request cfg (create_payload cfg title content parent_id)
    end in
  http write w2 = (Ok response, w3) ->
  let success :=
    match existing with
    | Some _ => (status_code response =? 200)%Z
    | None => Py.in_200_201 (status_code response)
    end in
  let failed := match existing with Some _ => FailedToUpdatePage | None => FailedToCreatePage end in
  let succeeded := match existing with Some _ => PageUpdated | None => PageCreated end in
  let returned lines :=
    (Ok tt, mkState w3 (sent st1 ++ [existence_query cfg title; write])
              (printed st1 ++ lines)) in
  (success = false ->
   new_page http cfg title content parent st
   = returned [failed; StatusCode (status_code response); ResponseText (text response)])
  /\
  (success = true ->
   forall u, webui_url cfg response = Ok u ->
   new_page http cfg title content parent st = returned [succeeded; Url u]).
Proof.
  intros H1 H2 He write Hw success failed succeeded returned.
  rewrite (new_page_after_lookup title content parent st st1 parent_id resp w2 H1 H2).
  cbv zeta. rewrite He.
  destruct existing as [[page_id version]|].
  - rewrite (update_existing_answered title content parent_id page_id version
               (mkState w2 (sent st1 ++ [existence_query cfg title]) (printed st1))
               response w3 Hw).
    subst success returned. cbv zeta. cbn [sent printed].
    split.
    + intros ->. rewrite <- app_assoc. reflexivity.
    + intros -> u ->. rewrite <- app_assoc. reflexivity.
  - rewrite (create_new_answered title content parent_id
               (mkState w2 (sent st1 ++ [existence_query cfg title]) (printed st1))
               response w3 Hw).
    subst success returned. cbv zeta. cbn [sent printed].
    split.
    + intros ->. rewrite <- app_assoc. reflexivity.
    + intros -> u ->. rewrite <- app_assoc. reflexivity.
Qed.

(** ** The attachment upsert *)

(** C6. When the create is rejected with a name collision (status 400,
    body containing "same file name") and the lookup by filename finds
    nothing (a status other than 200, or a result list that is empty or
    absent), [upload_attachment_to_page] raises, with the lookup's status
    and body in the message, and sends nothing to a data endpoint. *)
Theorem upload_attachment_unlocated (page_id : json) (filename : string)
    (file_bytes : list Byte.byte) (mime_type : string) (st : state W)
    (response att_resp : response) (w1 w2 : W) :
  http (attachment_post cfg (ChildAttachment page_id) filename file_bytes mime_type)
       (world st) = (Ok response, w1) ->
  status_code response = 400%Z ->
  PyStr.contains "same file name" (text response) = true ->
  http (attachment_lookup cfg page_id filename) w1 = (Ok att_resp, w2) ->
  (status_code att_resp <> 200%Z \/
   exists data results,
     response_json att_resp = Ok data /\
     Py.get data "results" (JArr []) = Ok results /\
     Py.truthy results = false) ->
  upload_attachment_to_page http cfg page_id filename file_bytes mime_type st
  = (Raise (Exception (FailedToFindExistingAttachment
                         (status_code att_resp) (text att_resp))),
     mkState w2
       (sent st ++ [attachment_post cfg (ChildAttachment page_id) filename
                      file_bytes mime_type;
                    attachment_lookup cfg page_id filename])
       (printed st)).
Proof.
  intros Hp Hs Hc Hl Hno.
  unfold upload_attachment_to_page, bind, send, raise, lift.
  rewrite Hp, Hs, Hc. cbn [Z.eqb Pos.eqb andb world sent printed].
  rewrite Hl. cbn [world sent printed]. rewrite <- app_assoc. cbn [app].
  destruct (status_code att_resp =? 200)%Z eqn:E; [|reflexivity].
  destruct Hno as [Hne|(data & results & Hd & Hr & Ht)].
  - apply Z.eqb_eq in E. contradiction.
  - rewrite Hd. cbn [rbind]. rewrite Hr, Ht. reflexivity.
Qed.

End ClientFacts.

(** ** The attachment upsert against the platform's store *)

Section PlatformFacts.

Variable cfg : config.


Lemma named_name_of (page filename : string) (a : attachment) :
  named page filename a = true <-> name_of a = (page, filename).
Proof.
  unfold named, name_of. rewrite andb_true_iff, !String.eqb_eq.
  split; [intros [-> ->]; reflexivity | intros [= -> ->]; split; reflexivity].
Qed.





Lemma replace_data_name (page : string) (id : Z) (data : list Byte.byte)
    (a : attachment) :
  name_of (replace_data page id data a) = name_of a.
Proof. unfold replace_data. destruct (identified page id a); reflexivity. Qed.





(** Every request keeps the invariant, so every store reached from the
    empty one satisfies it. *)
Lemma platform_http_keeps_wf (rq : request) (w : platform) :
  platform_wf w -> platform_wf (snd (platform_http rq w)).
Proof.
  intros Hwf.
  assert (Hcreate : forall page filename data,
             existsb (named page filename) (attachments w) = false ->
             NoDup (map name_of
                      (attachments w ++ [mkAttachment (next_id w) page filename data 1]))).
  { intros page filename data Ex. rewrite map_app.
    apply NoDup_app; [exact Hwf | repeat constructor; intros [] |].
    intros n Hn [<-|[]]. apply in_map_iff in Hn. destruct Hn as (b & Hb & Hin).
    change (name_of b = (page, filename)) in Hb. apply named_name_of in Hb.
    rewrite (proj2 (existsb_exists _ _) (ex_intro _ b (conj Hin Hb))) in Ex.
    discriminate Ex. }
  assert (Hdata : forall page id data,
             NoDup (map name_of (map (replace_data page id data) (attachments w)))).
  { intros page id data. rewrite map_map.
    erewrite map_ext; [exact Hwf|]. intros a. apply replace_data_name. }
  unfold platform_http.
  repeat match goal with
         | |- context [match ?x with _ => _ end] => destruct x eqn:?
         end; cbn [snd];
    first [exact Hwf | apply Hcreate; assumption | apply Hdata].
Qed.

Lemma empty_platform_wf : platform_wf empty_platform.
Proof. constructor. Qed.



End PlatformFacts.

(** ** The per-file loop *)

Section LoopFacts.

Variable W : Type.
Variable http : transport W.
Variable cfg : config.
Variable os_path_join : string -> string -> string.
Variable os_path_splitext : string -> string * string.
Variable read_text : string -> result string.
Variable read_bytes : string -> result (list Byte.byte).
Variable guess_type : string -> option string.

Local Notation "'announce'" :=
  (announce_file W os_path_join os_path_splitext read_text).
Local Notation "'create'" := (create_sub_page W http cfg).
Local Notation "'attach'" :=
  (attach_sub_page W http cfg os_path_join read_bytes guess_type).
Local Notation "'process'" :=
  (process_file W http cfg os_path_join os_path_splitext read_text read_bytes guess_type).
Local Notation "'loop'" :=
  (process_files W http cfg os_path_join os_path_splitext read_text read_bytes guess_type).

Lemma quiet_ret {A} (a : A) : quiet (W := W) (ret a).
Proof. intros st. exists []. rewrite app_nil_r. split; reflexivity. Qed.

Lemma quiet_raise {A} (e : exn) : quiet (W := W) (A := A) (raise e).
Proof. intros st. exists []. rewrite app_nil_r. split; reflexivity. Qed.

Lemma quiet_lift {A} (r : result A) : quiet (W := W) (lift r).
Proof. intros st. exists []. rewrite app_nil_r. split; reflexivity. Qed.

Lemma quiet_send (rq : request) : quiet (send http rq).
Proof.
  intros st. exists []. rewrite app_nil_r. unfold send.
  destruct (http rq (world st)). split; reflexivity.
Qed.

Lemma quiet_print (l : line) : processed [l] = [] -> quiet (W := W) (print l).
Proof. intros H st. exists [l]. split; [reflexivity | exact H]. Qed.

Lemma quiet_bind {A B} (m : M W A) (k : A -> M W B) :
  quiet m -> (forall a, quiet (k a)) -> quiet (bind m k).
Proof.
  intros Hm Hk st. unfold bind.
  destruct (Hm st) as (l1 & E1 & P1).
  destruct (m st) as [[a|e] st1]; cbn [snd] in E1.
  - destruct (Hk a st1) as (l2 & E2 & P2).
    exists (l1 ++ l2)%list. rewrite E2, E1, <- app_assoc.
    split; [reflexivity|]. unfold processed in *. rewrite flat_map_app, P1, P2.
    reflexivity.
  - exists l1. split; assumption.
Qed.

Lemma quiet_try {A} (m : M W A) : quiet m -> quiet (try m).
Proof.
  intros Hm st. unfold try. destruct (Hm st) as (l & E & P).
  destruct (m st) as [r st1]. exists l. split; assumption.
Qed.

Ltac quiet_steps :=
  repeat first
    [ apply quiet_ret | apply quiet_raise | apply quiet_lift | apply quiet_send
    | apply quiet_print; reflexivity
    | apply quiet_try
    | apply quiet_bind; [|intros ?]
    | match goal with
      | |- quiet (if ?b then _ else _) => destruct b
      | |- quiet (match ?x with _ => _ end) => destruct x
      | |- quiet (let _ := _ in _) => cbv zeta
      end ].

Lemma quiet_get_page_id_by_title (title : option string) :
  quiet (get_page_id_by_title http cfg title).
Proof. unfold get_page_id_by_title. quiet_steps. Qed.

Lemma quiet_new_page (title content : string) (parent : option string) :
  quiet (new_page http cfg title content parent).
Proof.
  unfold new_page. apply quiet_bind.
  - apply quiet_try, quiet_get_page_id_by_title.
  - intros [parent_id|e]; [|quiet_steps].
    unfold update_existing, create_new, print_failure. quiet_steps.
Qed.

Lemma quiet_upload_attachment_to_page (page_id : json) (filename : string)
    (file_bytes : list Byte.byte) (mime_type : string) :
  quiet (upload_attachment_to_page http cfg page_id filename file_bytes mime_type).
Proof. unfold upload_attachment_to_page. quiet_steps. Qed.

Lemma quiet_create (title filename child_html : string) :
  quiet (create title filename child_html).
Proof.
  unfold create_sub_page. cbv zeta. apply quiet_bind.
  - apply quiet_try, quiet_new_page.
  - intros [u|e]; quiet_steps.
Qed.

Lemma quiet_attach (directory_path filename : string) :
  quiet (attach directory_path filename).
Proof.
  unfold attach_sub_page. cbv zeta. apply quiet_bind.
  - apply quiet_try. unfold attach_file. apply quiet_bind.
    + apply quiet_get_page_id_by_title.
    + intros sub_page_id. destruct (negb _); [quiet_steps|].
      cbv zeta. apply quiet_bind; [apply quiet_lift|]. intros file_bytes.
      apply quiet_bind; [apply quiet_upload_attachment_to_page|]. intros _.
      quiet_steps.
  - intros [u|e]; quiet_steps.
Qed.

Lemma quiet_get_content_body_for_file (filename file_path : string) :
  quiet (get_content_body_for_file W os_path_splitext read_text filename file_path).
Proof. unfold get_content_body_for_file. quiet_steps. Qed.

Lemma processed_app (l1 l2 : list line) :
  processed (l1 ++ l2) = (processed l1 ++ processed l2)%list.
Proof. apply flat_map_app. Qed.

Lemma announce_file_run (directory_path directory_page_title filename : string)
    (st : state W) :
  let run := announce directory_path directory_page_title filename st in
  (exists child_html, fst run = Ok child_html) /\
  processed (printed (snd run)) = (processed (printed st) ++ [filename])%list.
Proof.
  unfold announce_file, get_content_body_for_file, bind, print, ret. cbv zeta.
  destruct (member _ CODE_EXTENSIONS).
  - destruct (read_text _); cbn [fst snd printed];
      (split; [eexists; reflexivity|]);
      rewrite !processed_app, <- !app_assoc, !app_nil_r; reflexivity.
  - destruct (member _ IMAGE_EXTENSIONS); [|destruct (member _ OFFICE_EXTENSIONS)];
      cbn [fst snd printed];
      (split; [eexists; reflexivity|]);
      rewrite !processed_app, <- !app_assoc, !app_nil_r; reflexivity.
Qed.

Lemma create_sub_page_caught (directory_page_title filename child_html : string)
    (st : state W) :
  create directory_page_title filename child_html st =
    match new_page http cfg filename child_html (Some directory_page_title) st with
    | (Ok _, st1) => (Ok tt, st1)
    | (Raise e, st1) =>
        (Ok tt, mkState (world st1) (sent st1) (printed st1 ++ [ErrorCreatingPage e]))
    end.
Proof.
  unfold create_sub_page, bind, try, print, ret. cbv zeta.
  destruct (new_page _ _ _ _ _ st) as [[u|e] st1]; reflexivity.
Qed.

Lemma attach_sub_page_caught (directory_path filename : string) (st : state W) :
  attach directory_path filename st =
    match attach_file W http cfg read_bytes guess_type filename
            (os_path_join directory_path filename) filename st with
    | (Ok _, st1) => (Ok tt, st1)
    | (Raise e, st1) =>
        (Ok tt,
         mkState (world st1) (sent st1) (printed st1 ++ [ErrorUploadingAttachment e]))
    end.
Proof.
  unfold attach_sub_page, bind, try, print, ret. cbv zeta.
  destruct (attach_file _ _ _ _ _ _ _ _ st) as [[u|e] st1]; reflexivity.
Qed.

Lemma process_file_run (directory_path directory_page_title filename : string)
    (st : state W) :
  let run := process directory_path directory_page_title filename st in
  fst run = Ok tt /\
  processed (printed (snd run)) = (processed (printed st) ++ [filename])%list.
Proof.
  cbv zeta. unfold process_file, bind.
  destruct (announce_file_run directory_path directory_page_title filename st)
    as [[child_html Hok] Hp].
  destruct (announce directory_path directory_page_title filename st)
    as [r0 st0]. cbn [fst snd] in Hok, Hp. subst r0.
  destruct (quiet_create directory_page_title filename child_html st0) as (l1 & E1 & P1).
  rewrite create_sub_page_caught in *.
  destruct (new_page http cfg filename child_html (Some directory_page_title) st0)
    as [[u|e] st1]; cbn [snd] in E1.
  - destruct (quiet_attach directory_path filename st1) as (l2 & E2 & P2).
    rewrite attach_sub_page_caught in *.
    destruct (attach_file _ _ _ _ _ _ _ _ st1) as [[u2|e2] st2];
      cbn [fst snd] in *; (split; [reflexivity|]);
      rewrite E2, E1, !processed_app, P1, P2, Hp, !app_nil_r; reflexivity.
  - match goal with
    | |- context [attach_sub_page _ _ _ _ _ _ _ _ ?s] =>
        destruct (quiet_attach directory_path filename s) as (l2 & E2 & P2);
        rewrite attach_sub_page_caught in *;
        destruct (attach_file W http cfg read_bytes guess_type filename
                    (os_path_join directory_path filename) filename s)
          as [[u2|e2] st2]
    end;
      cbn [fst snd] in *; (split; [reflexivity|]);
      rewrite E2, E1, !processed_app, P1, P2, Hp, !app_nil_r; reflexivity.
Qed.


End LoopFacts.

(** ** Runs on the sample data *)

Section Runs.

Example update_goes_to_page_under_parent :
  issued Demo.updating (snd (new_page replay Demo.cfg "X" "body" (Some "P") Demo.updating))
  = [lookup_query Demo.cfg (Some "P");
     existence_query Demo.cfg "X";
     put_request Demo.cfg (JStr "8")
       (update_payload Demo.cfg (JStr "8") "X" "body" (JStr "100") (JNum 6))].
Proof. reflexivity. Qed.

Example create_under_parent :
  issued Demo.creating (snd (new_page replay Demo.cfg "X" "body" (Some "P") Demo.creating))
  = [lookup_query Demo.cfg (Some "P");
     existence_query Demo.cfg "X";
     post_request Demo.cfg (create_payload Demo.cfg "X" "body" (JStr "100"))].
Proof. reflexivity. Qed.

Example update_rejected_is_printed :
  new_page replay Demo.cfg "X" "body" (Some "P") Demo.update_rejected
  = (Ok tt,
     mkState []
       [lookup_query Demo.cfg (Some "P");
        existence_query Demo.cfg "X";
        put_request Demo.cfg (JStr "8")
          (update_payload Demo.cfg (JStr "8") "X" "body" (JStr "100") (JNum 6))]
       [FailedToUpdatePage; StatusCode 409; ResponseText "Version conflict"]).
Proof. reflexivity. Qed.

(** The update of page 8 is answered 409 with a body: [new_page] has sent
    the PUT, and it returns normally instead of raising to its caller. *)
Lemma new_page_failed_write_returns :
  let run := new_page replay Demo.cfg "X" "body" (Some "P") Demo.update_rejected in
  let put := put_request Demo.cfg (JStr "8")
               (update_payload Demo.cfg (JStr "8") "X" "body" (JStr "100") (JNum 6)) in
  sent (snd run) = [lookup_query Demo.cfg (Some "P"); existence_query Demo.cfg "X"; put] /\
  replay put [Ok Demo.conflict] = (Ok Demo.conflict, []) /\
  status_code Demo.conflict = 409%Z /\
  fst run = Ok tt /\
  ~ (exists e, fst run = Raise e).
Proof.
  cbv zeta. rewrite update_rejected_is_printed. cbn [fst snd sent].
  repeat (split; [reflexivity|]).
  intros [e He]. discriminate He.
Qed.

Lemma new_page_update_target_witness :
  exists candidate last_id page_id,
    last_ancestor_id candidate = Ok last_id /\
    Py.getitem candidate "id" = Ok page_id /\
    req_path (put_request Demo.cfg (JStr "8")
                (update_payload Demo.cfg (JStr "8") "X" "body" (JStr "100") (JNum 6)))
    = ContentId page_id.
Proof.
  destruct (new_page_update_target _ replay Demo.cfg "X" "body" (Some "P") Demo.updating
              (put_request Demo.cfg (JStr "8")
                 (update_payload Demo.cfg (JStr "8") "X" "body" (JStr "100") (JNum 6))))
    as (parent_id & st1 & resp & w2 & items & candidate & last_id & page_id
        & _ & _ & _ & _ & Hl & _ & Hid & Hpath & _).
  - right. right. left. reflexivity.
  - reflexivity.
  - exists candidate, last_id, page_id. repeat split; assumption.
Defined.




Lemma new_page_write_outcome_witness :
  new_page replay Demo.cfg "X" "body" (Some "P") Demo.update_rejected
  = (Ok tt,
     mkState []
       [lookup_query Demo.cfg (Some "P");
        existence_query Demo.cfg "X";
        put_request Demo.cfg (JStr "8")
          (update_payload Demo.cfg (JStr "8") "X" "body" (JStr "100") (JNum 6))]
       [FailedToUpdatePage; StatusCode 409; ResponseText "Version conflict"]).
Proof.
  refine (proj1 (new_page_write_outcome _ replay Demo.cfg "X" "body" (Some "P")
                   Demo.update_rejected
                   (mkState [Ok Demo.two_pages; Ok Demo.conflict]
                      [lookup_query Demo.cfg (Some "P")] [])
                   (JStr "100") Demo.two_pages [Ok Demo.conflict]
                   (Some (JStr "8", JNum 6)) Demo.conflict [] _ _ _ _) _);
    reflexivity.
Defined.

Lemma get_page_id_by_title_result_set_witness :
  fst (get_page_id_by_title replay Demo.cfg (Some "P") (Demo.start [Ok Demo.parent_found]))
  = Ok (JStr "100").
Proof.
  refine (proj1 (proj2 (get_page_id_by_title_result_set _ replay Demo.cfg (Some "P")
                          (Demo.start [Ok Demo.parent_found]) Demo.parent_found []
                          (result_list [JObj [("id", JStr "100")]])
                          [JObj [("id", JStr "100")]] _ _ _ _ _ _))
            (JObj [("id", JStr "100")]) [] _); reflexivity.
Defined.

Lemma upload_attachment_unlocated_witness :
  upload_attachment_to_page replay Demo.cfg (JStr "8") "plot.png" [] "image/png"
    Demo.unlocated
  = (Raise (Exception (FailedToFindExistingAttachment 200 "")),
     mkState []
       [attachment_post Demo.cfg (ChildAttachment (JStr "8")) "plot.png" [] "image/png";
        attachment_lookup Demo.cfg (JStr "8") "plot.png"]
       []).
Proof.
  refine (upload_attachment_unlocated _ replay Demo.cfg (JStr "8") "plot.png" []
            "image/png" Demo.unlocated Demo.name_collision Demo.none_found
            [Ok Demo.none_found] [] _ _ _ _ _); try reflexivity.
  right. exists (result_list []), (JArr []). repeat split; reflexivity.
Defined.

Example two_uploads_on_the_platform :
  let run1 := upload_attachment_to_page platform_http Demo.cfg (JStr "8") "plot.png"
                Demo.first_bytes "image/png" Demo.empty_store in
  let run2 := upload_attachment_to_page platform_http Demo.cfg (JStr "8") "plot.png"
                Demo.second_bytes "image/png" (snd run1) in
  attachments (world (snd run2))
  = [mkAttachment 1 "8" "plot.png" Demo.second_bytes 2].
Proof. reflexivity. Qed.


Example supported_listing :
  supported_files Demo.listing = ["a.ils"; "b.png"; "c.docx"; "E.IL"].
Proof. reflexivity. Qed.

(** With no connection and nothing readable, every file of the batch is
    still visited and both failures of each file are printed. *)
Example batch_goes_on_offline :
  process_files _ replay Demo.cfg Demo.join Demo.no_ext Demo.unreadable_text
    Demo.unreadable_bytes Demo.no_guess "dir" "Folder" ["a.ils"; "b.png"] Demo.offline
  = (Ok tt,
     mkState []
       [lookup_query Demo.cfg (Some "Folder"); lookup_query Demo.cfg (Some "a.ils");
        lookup_query Demo.cfg (Some "Folder"); lookup_query Demo.cfg (Some "b.png")]
       [ProcessingFile "a.ils";
        CreatingSubPage "a.ils" "Folder";
        ErrorFindingParent (Some "Folder") ConnectionError;
        ErrorUploadingAttachment ConnectionError;
        ProcessingFile "b.png";
        CreatingSubPage "b.png" "Folder";
        ErrorFindingParent (Some "Folder") ConnectionError;
        ErrorUploadingAttachment ConnectionError]).
Proof. reflexivity. Qed.

End Runs.

(** * Further properties of the scripts *)

(** ** Title resolution: where an id comes from, and the failures *)

Section TitleResolution.

Variable W : Type.
Variable http : transport W.
Variable cfg : config.

(** X1. An id that [get_page_id_by_title] returns is always the [id] of
    the first element of the result list of a 200 answer whose body is
    JSON with a non-zero [size]; exactly the lookup has been sent. *)
Theorem resolved_id_origin (title : option string) (st st1 : state W) (id : json) :
  get_page_id_by_title http cfg title st = (Ok id, st1) ->
  exists response w1 data size results first,
    unconfigured cfg = false /\
    http (lookup_query cfg title) (world st) = (Ok response, w1) /\
    status_code response = 200%Z /\
    json_body response = Some data /\
    Py.getitem data "size" = Ok size /\
    Py.equal size (JNum 0) = false /\
    Py.getitem data "results" = Ok results /\
    Py.getindex results 0 = Ok first /\
    Py.getitem first "id" = Ok id /\
    st1 = mkState w1 (sent st ++ [lookup_query cfg title]) (printed st).
Proof.
  unfold get_page_id_by_title, bind, send, raise, lift, print, ret.
  destruct (unconfigured cfg); [discriminate|].
  destruct (http _ _) as [[response|e] w1] eqn:Hh; [|discriminate].
  destruct (status_code response =? 200)%Z eqn:Hs; cbn [negb]; [|discriminate].
  destruct (json_body response) as [data|] eqn:Hj; [|discriminate].
  destruct (Py.getitem data "size") as [size|] eqn:Hz; [|discriminate].
  destruct (Py.equal size (JNum 0)) eqn:He; [discriminate|].
  unfold rbind.
  destruct (Py.getitem data "results") as [results|] eqn:Hr; [|discriminate].
  destruct (Py.getindex results 0) as [first|] eqn:Hf; [|discriminate].
  intros [= Hid <-].
  exists response, w1, data, size, results, first.
  apply Z.eqb_eq in Hs. repeat split; assumption || reflexivity.
Qed.

(** X2. Title resolution only reads: with an incomplete configuration it
    sends nothing, otherwise it sends its one GET and nothing else,
    whatever the answer. *)
Theorem title_resolution_requests (title : option string) (st : state W) :
  issued st (snd (get_page_id_by_title http cfg title st))
  = if unconfigured cfg then [] else [lookup_query cfg title].
Proof.
  apply issued_app.
  unfold get_page_id_by_title, bind, send, raise, lift, print, ret.
  destruct (unconfigured cfg); [cbn; rewrite app_nil_r; reflexivity|].
  destruct (http _ _) as [[response|e] w1]; [|reflexivity].
  destruct (negb _); [reflexivity|].
  destruct (json_body response) as [data|]; [|reflexivity].
  destruct (Py.getitem data "size") as [size|]; [|reflexivity].
  destruct (Py.equal size (JNum 0)); reflexivity.
Qed.

(** X3. An answer with a status other than 200 makes the resolution raise
    with that status and body in the message, whatever the body holds;
    nothing is printed. *)
Theorem title_lookup_rejected (title : option string) (st : state W)
    (response : response) (w1 : W) :
  unconfigured cfg = false ->
  http (lookup_query cfg title) (world st) = (Ok response, w1) ->
  status_code response <> 200%Z ->
  get_page_id_by_title http cfg title st
  = (Raise (Exception (FailedToFetchPageId (status_code response) (text response))),
     mkState w1 (sent st ++ [lookup_query cfg title]) (printed st)).
Proof.
  intros Hc Hh Hs. unfold get_page_id_by_title, bind, send, raise.
  rewrite Hc, Hh. apply Z.eqb_neq in Hs. rewrite Hs. reflexivity.
Qed.

Lemma take_length (n : nat) (s : string) : String.length (PyStr.take n s) <= n.
Proof.
  unfold PyStr.take. revert s. induction n as [|n IH]; intros s.
  - destruct s; cbn; lia.
  - destruct s as [|c r]; cbn [substring String.length]; [lia|].
    specialize (IH r). lia.
Qed.

(** X4. A 200 answer whose body is not JSON (a login page) makes the
    resolution print a preview of the body, at most 500 characters long,
    and raise the decoding error. *)
Theorem title_lookup_undecodable (title : option string) (st : state W)
    (response : response) (w1 : W) :
  unconfigured cfg = false ->
  http (lookup_query cfg title) (world st) = (Ok response, w1) ->
  status_code response = 200%Z ->
  json_body response = None ->
  exists preview,
    get_page_id_by_title http cfg title st
    = (Raise JSONDecodeError,
       mkState w1 (sent st ++ [lookup_query cfg title])
         (printed st ++ [DebugDecodeFailed preview])) /\
    preview = PyStr.take 500 (text response) /\
    String.length preview <= 500.
Proof.
  intros Hc Hh Hs Hj. exists (PyStr.take 500 (text response)).
  split; [|split; [reflexivity | apply take_length]].
  unfold get_page_id_by_title, bind, send, raise, print.
  rewrite Hc, Hh, Hs, Hj. reflexivity.
Qed.

End TitleResolution.

(** ** The page upsert: lookups that fail, answers that are off *)

Section PageUpsertEdges.

Variable W : Type.
Variable http : transport W.
Variable cfg : config.

(** X5. Whatever exception the parent lookup raises, [new_page] swallows
    it: it prints the error with the parent title, returns normally, and
    sends nothing after the lookup (no existence check, no write). *)
Theorem new_page_parent_unresolved (title content : string) (parent : option string)
    (st st1 : state W) (e : exn) :
  get_page_id_by_title http cfg parent st = (Raise e, st1) ->
  new_page http cfg title content parent st
  = (Ok tt, mkState (world st1) (sent st1)
              (printed st1 ++ [ErrorFindingParent parent e])) /\
  (issued st (snd (new_page http cfg title content parent st)) = [] \/
   issued st (snd (new_page http cfg title content parent st))
   = [lookup_query cfg parent]).
Proof.
  intros H. rewrite (new_page_lookup_failed W http cfg title content parent st st1 e H).
  split; [reflexivity|]. cbn [snd].
  pose proof (get_page_id_by_title_sent W http cfg parent st) as Hs.
  cbv zeta in Hs. rewrite H in Hs. cbn [snd] in Hs.
  destruct Hs as [Hs|Hs].
  - left. apply issued_app. cbn [sent]. rewrite Hs, app_nil_r. reflexivity.
  - right. apply issued_app. exact Hs.
Qed.

(** X6. With an incomplete configuration (no base URL or no space key)
    [new_page] contacts nobody: it prints the configuration error as a
    parent-lookup failure and returns normally. *)
Theorem new_page_unconfigured (title content : string) (parent : option string)
    (st : state W) :
  unconfigured cfg = true ->
  new_page http cfg title content parent st
  = (Ok tt,
     mkState (world st) (sent st)
       (printed st ++ [ErrorFindingParent parent (ValueError MISSING_CONFIGURATION)])).
Proof.
  intros Hc. apply new_page_lookup_failed.
  unfold get_page_id_by_title. rewrite Hc. reflexivity.
Qed.

(** X7. In every run [new_page] issues at most three requests: at most
    two reads followed by at most one write.  It never both updates and
    creates, and never writes twice. *)
Theorem new_page_at_most_one_write (title content : string) (parent : option string)
    (st : state W) :
  exists reads writes,
    issued st (snd (new_page http cfg title content parent st)) = (reads ++ writes)%list /\
    Forall (fun rq => is_write rq = false) reads /\
    List.length reads <= 2 /\
    List.length writes <= 1.
Proof.
  destruct (get_page_id_by_title http cfg parent st) as [[parent_id|e] st1] eqn:H1.
  2:{ pose proof (get_page_id_by_title_sent W http cfg parent st) as Hs.
      cbv zeta in Hs. rewrite H1 in Hs. cbn [snd] in Hs.
      rewrite (new_page_lookup_failed W http cfg title content parent st st1 e H1).
      cbn [snd]. destruct Hs as [Hs|Hs].
      - exists [], []. split; [|split; [constructor | cbn; lia]].
        apply issued_app. cbn [sent app]. rewrite Hs, app_nil_r. reflexivity.
      - exists [lookup_query cfg parent], [].
        split; [|split; [repeat constructor | cbn; lia]].
        apply issued_app. cbn [sent]. rewrite Hs. reflexivity. }
  pose proof (get_page_id_by_title_ok_sent W http cfg parent st st1 parent_id H1) as Hs.
  assert (Hreads : Forall (fun rq => is_write rq = false)
                     [lookup_query cfg parent; existence_query cfg title])
    by (repeat constructor).
  destruct (http (existence_query cfg title) (world st1)) as [[resp|e] w2] eqn:H2.
  2:{ rewrite (new_page_query_failed W http cfg title content parent st st1
                 parent_id e w2 H1 H2). cbn [snd].
      exists [lookup_query cfg parent; existence_query cfg title], [].
      split; [|split; [exact Hreads | cbn; lia]].
      apply issued_app. cbn [sent]. rewrite Hs, <- !app_assoc. reflexivity. }
  rewrite (new_page_after_lookup W http cfg title content parent st st1
             parent_id resp w2 H1 H2). cbv zeta.
  destruct (existing_page parent_id resp) as [[[page_id version]|]|e].
  - eexists [lookup_query cfg parent; existence_query cfg title], [_].
    split; [|split; [exact Hreads | cbn; lia]].
    apply issued_app. rewrite update_existing_sent. cbn [sent].
    rewrite Hs, <- !app_assoc. reflexivity.
  - eexists [lookup_query cfg parent; existence_query cfg title], [_].
    split; [|split; [exact Hreads | cbn; lia]].
    apply issued_app. rewrite create_new_sent. cbn [sent].
    rewrite Hs, <- !app_assoc. reflexivity.
  - exists [lookup_query cfg parent; existence_query cfg title], [].
    split; [|split; [exact Hreads | cbn; lia]].
    apply issued_app. cbn [snd sent]. rewrite Hs, <- !app_assoc. reflexivity.
Qed.

(** X8. When the candidate selected under the parent cannot give an id
    and a version number (a key is missing, or the number is not a
    number), [new_page] raises that error to its caller and writes
    nothing: only the two reads have been sent. *)
Theorem new_page_unusable_candidate (title content : string) (parent : option string)
    (st st1 : state W) (parent_id : json) (resp : response) (w2 : W)
    (before after : list json) (candidate : json) (e : exn) :
  get_page_id_by_title http cfg parent st = (Ok parent_id, st1) ->
  http (existence_query cfg title) (world st1) = (Ok resp, w2) ->
  status_code resp = 200%Z ->
  result_items resp = Ok (before ++ candidate :: after)%list ->
  Forall (fun c => under_parent parent_id c = Ok false) before ->
  under_parent parent_id candidate = Ok true ->
  target_of candidate = Raise e ->
  new_page http cfg title content parent st
  = (Raise e, mkState w2 (sent st1 ++ [existence_query cfg title]) (printed st1)) /\
  issued st (snd (new_page http cfg title content parent st))
  = [lookup_query cfg parent; existence_query cfg title].
Proof.
  intros H1 H2 Hs Hi Hb Hu Ht.
  assert (Hrun : new_page http cfg title content parent st
                 = (Raise e, mkState w2 (sent st1 ++ [existence_query cfg title])
                               (printed st1))).
  { rewrite (new_page_after_lookup W http cfg title content parent st st1
               parent_id resp w2 H1 H2). cbv zeta.
    unfold existing_page. rewrite Hs. cbn [Z.eqb Pos.eqb]. rewrite Hi. cbn [rbind].
    rewrite (find_existing_first parent_id before after candidate Hb Hu), Ht.
    reflexivity. }
  split; [exact Hrun|]. rewrite Hrun. cbn [snd]. apply issued_app. cbn [sent].
  rewrite (get_page_id_by_title_ok_sent W http cfg parent st st1 parent_id H1).
  rewrite <- app_assoc. reflexivity.
Qed.


(** X10. A 200 answer to the existence check whose body is not JSON is
    not taken for "no such page": [new_page] raises the decoding error to
    its caller and writes nothing. *)
Theorem new_page_undecodable_check (title content : string) (parent : option string)
    (st st1 : state W) (parent_id : json) (resp : response) (w2 : W) :
  get_page_id_by_title http cfg parent st = (Ok parent_id, st1) ->
  http (existence_query cfg title) (world st1) = (Ok resp, w2) ->
  status_code resp = 200%Z ->
  json_body resp = None ->
  new_page http cfg title content parent st
  = (Raise JSONDecodeError,
     mkState w2 (sent st1 ++ [existence_query cfg title]) (printed st1)).
Proof.
  intros H1 H2 Hs Hj.
  rewrite (new_page_after_lookup W http cfg title content parent st st1
             parent_id resp w2 H1 H2). cbv zeta.
  unfold existing_page, result_items, response_json. rewrite Hs, Hj. reflexivity.
Qed.

End PageUpsertEdges.

(** ** The attachment upsert: each way out *)

Section AttachmentEdges.

Variable W : Type.
Variable http : transport W.
Variable cfg : config.

Lemma in_200_201_not_400 (status : Z) :
  Py.in_200_201 status = true -> (status =? 400)%Z = false.
Proof.
  unfold Py.in_200_201. intros H. apply orb_true_iff in H.
  destruct H as [H|H]; apply Z.eqb_eq in H; subst; reflexivity.
Qed.

(** X11. A create answered 200 or 201 ends the call at once: the result is
    the decoded body of that answer, one request has been sent, and the
    text of the body plays no part. *)
Theorem upload_attachment_created (page_id : json) (filename : string)
    (file_bytes : list Byte.byte) (mime_type : string) (st : state W)
    (response : response) (w1 : W) :
  http (attachment_post cfg (ChildAttachment page_id) filename file_bytes mime_type)
       (world st) = (Ok response, w1) ->
  Py.in_200_201 (status_code response) = true ->
  upload_attachment_to_page http cfg page_id filename file_bytes mime_type st
  = (response_json response,
     mkState w1
       (sent st ++ [attachment_post cfg (ChildAttachment page_id) filename
                      file_bytes mime_type])
       (printed st)).
Proof.
  intros Hp Hs. unfold upload_attachment_to_page, bind, send, raise, lift.
  rewrite Hp, (in_200_201_not_400 _ Hs), Hs. reflexivity.
Qed.

(** X12. A create answered with any other status that is not the name
    collision (not 400, or 400 without "same file name" in the body)
    raises with that status and body; no lookup and no second POST
    follow. *)
Theorem upload_attachment_rejected (page_id : json) (filename : string)
    (file_bytes : list Byte.byte) (mime_type : string) (st : state W)
    (response : response) (w1 : W) :
  http (attachment_post cfg (ChildAttachment page_id) filename file_bytes mime_type)
       (world st) = (Ok response, w1) ->
  Py.in_200_201 (status_code response) = false ->
  (status_code response <> 400%Z \/
   PyStr.contains "same file name" (text response) = false) ->
  upload_attachment_to_page http cfg page_id filename file_bytes mime_type st
  = (Raise (Exception (FailedToUploadAttachment
                         (status_code response) (text response))),
     mkState w1
       (sent st ++ [attachment_post cfg (ChildAttachment page_id) filename
                      file_bytes mime_type])
       (printed st)).
Proof.
  intros Hp Hs Hno. unfold upload_attachment_to_page, bind, send, raise, lift.
  rewrite Hp, Hs.
  replace ((status_code response =? 400)%Z
           && PyStr.contains "same file name" (text response)) with false;
    [reflexivity|].
  symmetry. apply andb_false_iff.
  destruct Hno as [H|H]; [left; apply Z.eqb_neq; exact H | right; exact H].
Qed.

(** X13. After a name collision, when the lookup returns a non-empty
    result list, the bytes are posted to the data endpoint of the first
    attachment of that list; the call returns the decoded body of that
    answer if its status is 200 or 201 and raises with its status and body
    otherwise. *)
Theorem upload_attachment_replaced (page_id : json) (filename : string)
    (file_bytes : list Byte.byte) (mime_type : string) (st : state W)
    (response att_resp update_resp : response) (w1 w2 w3 : W)
    (data first att_id : json) (rest : list json) :
  http (attachment_post cfg (ChildAttachment page_id) filename file_bytes mime_type)
       (world st) = (Ok response, w1) ->
  status_code response = 400%Z ->
  PyStr.contains "same file name" (text response) = true ->
  http (attachment_lookup cfg page_id filename) w1 = (Ok att_resp, w2) ->
  status_code att_resp = 200%Z ->
  response_json att_resp = Ok data ->
  Py.get data "results" (JArr []) = Ok (JArr (first :: rest)) ->
  Py.getitem first "id" = Ok att_id ->
  http (attachment_post cfg (AttachmentData page_id att_id) filename file_bytes mime_type)
       w2 = (Ok update_resp, w3) ->
  upload_attachment_to_page http cfg page_id filename file_bytes mime_type st
  = (if Py.in_200_201 (status_code update_resp)
     then response_json update_resp
     else Raise (Exception (FailedToUpdateAttachment
                              (status_code update_resp) (text update_resp))),
     mkState w3
       (sent st ++ [attachment_post cfg (ChildAttachment page_id) filename
                      file_bytes mime_type;
                    attachment_lookup cfg page_id filename;
                    attachment_post cfg (AttachmentData page_id att_id) filename
                      file_bytes mime_type])
       (printed st)).
Proof.
  intros Hp Hs Hc Hl Hls Hd Hr Hid Hu.
  unfold upload_attachment_to_page, bind, send, raise, lift.
  rewrite Hp, Hs, Hc. cbn [Z.eqb Pos.eqb andb world sent printed].
  rewrite Hl, Hls. cbn [Z.eqb Pos.eqb world sent printed].
  rewrite Hd. cbn [rbind]. rewrite Hr. cbn [Py.truthy].
  rewrite getindex_first. cbn [rbind]. rewrite Hid.
  cbn [world sent printed]. rewrite Hu. cbn [world sent printed].
  rewrite <- !app_assoc. cbn [app].
  destruct (Py.in_200_201 (status_code update_resp)); reflexivity.
Qed.

(** X14. In every run the attachment upsert sends between one and three
    requests, the first of which is the create POST, and never a PUT. *)
Theorem upload_attachment_bounded (page_id : json) (filename : string)
    (file_bytes : list Byte.byte) (mime_type : string) (st : state W) :
  exists rest,
    issued st (snd (upload_attachment_to_page http cfg page_id filename
                      file_bytes mime_type st))
    = attachment_post cfg (ChildAttachment page_id) filename file_bytes mime_type
      :: rest /\
    List.length rest <= 2 /\
    Forall (fun rq => req_method rq <> PUT) rest.
Proof.
  unfold upload_attachment_to_page, bind, send, raise, lift.
  destruct (http _ (world st)) as [[response|e] w1].
  2:{ exists []. split; [apply issued_app; reflexivity | split; [cbn; lia | constructor]]. }
  destruct (_ && _).
  2:{ exists []. destruct (negb _);
        (split; [apply issued_app; reflexivity | split; [cbn; lia | constructor]]). }
  cbn [world sent printed].
  destruct (http _ w1) as [[att_resp|e] w2]; cbn [world sent printed].
  2:{ exists [attachment_lookup cfg page_id filename].
      split; [apply issued_app; cbn [snd sent]; rewrite <- app_assoc; reflexivity|].
      split; [cbn; lia | repeat constructor; discriminate]. }
  assert (Hstop : forall (r : result json),
    exists rest,
      issued st
        (snd (r, mkState w2
                   ((sent st ++ [attachment_post cfg (ChildAttachment page_id)
                                   filename file_bytes mime_type])
                    ++ [attachment_lookup cfg page_id filename]) (printed st)))
      = attachment_post cfg (ChildAttachment page_id) filename file_bytes mime_type
        :: rest /\
      List.length rest <= 2 /\ Forall (fun rq => req_method rq <> PUT) rest).
  { intros r. exists [attachment_lookup cfg page_id filename].
    split; [apply issued_app; cbn [snd sent]; rewrite <- app_assoc; reflexivity|].
    split; [cbn; lia | repeat constructor; discriminate]. }
  destruct (status_code att_resp =? 200)%Z; [|apply Hstop].
  destruct (_ <- response_json att_resp ;; _)%result as [results|e]; [|apply Hstop].
  destruct (Py.truthy results); [|apply Hstop].
  destruct (_ <- Py.getindex results 0 ;; _)%result as [att_id|e]; [|apply Hstop].
  cbn [world sent printed].
  exists [attachment_lookup cfg page_id filename;
          attachment_post cfg (AttachmentData page_id att_id) filename
            file_bytes mime_type].
  split; [|split; [cbn; lia | repeat constructor; discriminate]].
  apply issued_app.
  destruct (http _ w2) as [[update_resp|e] w3]; cbn [snd sent];
    [destruct (Py.in_200_201 _)|]; cbn [snd sent];
    rewrite <- !app_assoc; reflexivity.
Qed.

End AttachmentEdges.

(** ** Escaping *)

Section Escaping.

Lemma escape_cdata_absent (s : string) :
  PyStr.contains CDATA_END s = false -> escape_cdata s = s.
Proof.
  induction s as [|c r IH]; intros H; [reflexivity|].
  cbn [PyStr.contains] in H. apply orb_false_iff in H. destruct H as [Hs Hr].
  rewrite (escape_cdata_miss c r Hs), (IH Hr). reflexivity.
Qed.

Lemma append_length (a b : string) :
  String.length (a ++ b) = String.length a + String.length b.
Proof. induction a as [|c a IH]; cbn; [reflexivity | rewrite IH; reflexivity]. Qed.

Lemma escape_cdata_grows (n : nat) :
  forall s, String.length s <= n ->
  String.length s <= String.length (escape_cdata s) /\
  (PyStr.contains CDATA_END s = true ->
   String.length s < String.length (escape_cdata s)).
Proof.
  induction n as [|n IH]; intros s Hn.
  - destruct s; [|cbn in Hn; lia]. split; [cbn; lia | discriminate].
  - destruct s as [|c r]; [split; [cbn; lia | discriminate]|].
    destruct (PyStr.startswith CDATA_END (String c r)) eqn:E.
    + destruct (prefix_cdata_end _ E) as [r' Hr]. rewrite Hr.
      rewrite escape_cdata_hit, !append_length.
      assert (Hlen : String.length r' <= n).
      { rewrite Hr in Hn. cbn in Hn. lia. }
      destruct (IH r' Hlen) as [Hle _]. cbn [String.length CDATA_END CDATA_END_ESCAPED].
      split; [lia | intros _; lia].
    + rewrite (escape_cdata_miss c r E). cbn [String.length PyStr.contains].
      rewrite E. cbn [orb].
      assert (Hlen : String.length r <= n) by (cbn in Hn; lia).
      destruct (IH r Hlen) as [Hle Hlt]. split; [lia|].
      intros H. specialize (Hlt H). lia.
Qed.

(** X15. The CDATA escaping leaves a text unchanged exactly when the text
    holds no []]>]. *)
Theorem escape_cdata_fixed_point (s : string) :
  escape_cdata s = s <-> PyStr.contains CDATA_END s = false.
Proof.
  split; [|apply escape_cdata_absent].
  intros H. destruct (PyStr.contains CDATA_END s) eqn:E; [|reflexivity].
  destruct (escape_cdata_grows (String.length s) s (le_n _)) as [_ Hlt].
  specialize (Hlt E). rewrite H in Hlt. lia.
Qed.

Lemma has_char_app (c : ascii) (a b : string) :
  has_char c (a ++ b) = has_char c a || has_char c b.
Proof.
  induction a as [|d a IH]; [reflexivity|].
  cbn [append has_char]. rewrite IH, orb_assoc. reflexivity.
Qed.

(** Replacing a one-character [old]. *)
Lemma replace_char_cons (c d : ascii) (new r : string) :
  PyStr.replace (String c "") new (String d r)
  = if Ascii.eqb c d
    then new ++ PyStr.replace (String c "") new r
    else String d (PyStr.replace (String c "") new r).
Proof.
  unfold PyStr.replace. cbn [PyStr.replace_from PyStr.startswith String.length Nat.sub].
  rewrite andb_true_r. reflexivity.
Qed.

Lemma replace_char_removes (c : ascii) (new s : string) :
  has_char c new = false ->
  has_char c (PyStr.replace (String c "") new s) = false.
Proof.
  intros Hn. induction s as [|d r IH]; [reflexivity|].
  rewrite replace_char_cons. destruct (Ascii.eqb c d) eqn:E.
  - rewrite has_char_app, Hn, IH. reflexivity.
  - cbn [has_char]. rewrite E, IH. reflexivity.
Qed.

Lemma replace_char_keeps_out (c d : ascii) (new s : string) :
  has_char c new = false -> has_char c s = false ->
  has_char c (PyStr.replace (String d "") new s) = false.
Proof.
  intros Hn. induction s as [|e r IH]; intros Hs; [reflexivity|].
  cbn [has_char] in Hs. apply orb_false_iff in Hs. destruct Hs as [He Hr].
  rewrite replace_char_cons. destruct (Ascii.eqb d e).
  - rewrite has_char_app, Hn, (IH Hr). reflexivity.
  - cbn [has_char]. rewrite He, (IH Hr). reflexivity.
Qed.

Lemma no_gt_no_cdata_end (s : string) :
  has_char ">" s = false -> PyStr.contains CDATA_END s = false.
Proof.
  induction s as [|c r IH]; intros H; [reflexivity|].
  cbn [PyStr.contains]. apply orb_false_iff. split.
  - destruct (PyStr.startswith CDATA_END (String c r)) eqn:E; [|reflexivity].
    destruct (prefix_cdata_end _ E) as [r' Hr]. rewrite Hr in H.
    cbn in H. discriminate H.
  - apply IH. cbn [has_char] in H. apply orb_false_iff in H. apply H.
Qed.

(** X16. The markup escaping of [create_confluence_automation_page]
    leaves no [<] and no [>] in the code, whatever the code; so the code
    block's CDATA payload is one that reads back as the escaped code, with
    no section ended early. *)
Theorem escape_markup_cdata_safe (code : string) :
  has_char "<" (escape_markup code) = false /\
  has_char ">" (escape_markup code) = false /\
  cdata_text (cdata_payload (escape_markup code)) = Some (escape_markup code).
Proof.
  assert (Hlt : has_char "<" (escape_markup code) = false).
  { unfold escape_markup. apply replace_char_keeps_out; [reflexivity|].
    apply replace_char_removes. reflexivity. }
  assert (Hgt : has_char ">" (escape_markup code) = false).
  { unfold escape_markup. apply replace_char_removes. reflexivity. }
  split; [exact Hlt|]. split; [exact Hgt|].
  unfold cdata_text, cdata_payload.
  change (cdata_text_from false 0 (CDATA_OPEN ++ escape_markup code ++ CDATA_END))
    with (cdata_text_from true 0 (escape_markup code ++ CDATA_END)).
  rewrite <- (escape_cdata_absent (escape_markup code)) at 1
    by (apply no_gt_no_cdata_end; exact Hgt).
  apply (cdata_text_inside (String.length (escape_markup code))). lia.
Qed.

End Escaping.

(** ** Page bodies of the folder upload *)

Lemma append_assoc_string (a b c : string) : ((a ++ b) ++ c = a ++ (b ++ c))%string.
Proof. induction a as [|x a IH]; cbn; [reflexivity | rewrite IH; reflexivity]. Qed.

(** Locating a part inside a concatenation. *)
Lemma split_after (a x before part after : string) :
  x = (before ++ part ++ after)%string ->
  (a ++ x = (a ++ before) ++ part ++ after)%string.
Proof. intros ->. symmetry. apply append_assoc_string. Qed.

Lemma split_here (part after : string) :
  (part ++ after = EmptyString ++ part ++ after)%string.
Proof. reflexivity. Qed.

Section BodyFacts.

Variable W : Type.
Variable os_path_splitext : string -> string * string.
Variable read_text : string -> result string.

(** X17. Building a page body never raises, sends nothing and leaves the
    world alone, whatever the file: the only trace it can leave is the
    line that reports an unreadable code file, and then the body is the
    one with the error note and the download link. *)
Theorem get_content_body_for_file_total (filename file_path : string) (st : state W) :
  exists body lines,
    get_content_body_for_file W os_path_splitext read_text filename file_path st
    = (Ok body, mkState (world st) (sent st) (printed st ++ lines)) /\
    (lines = [] \/
     exists e, read_text file_path = Raise e /\
               lines = [ErrorReadingTextFile e] /\
               body = read_error_body filename).
Proof.
  unfold get_content_body_for_file, bind, print, ret. cbv zeta.
  assert (Hsame : forall body : string,
             (Ok body, st)
             = (Ok body, mkState (world st) (sent st) (printed st ++ []))).
  { intros body. rewrite app_nil_r. destruct st; reflexivity. }
  destruct (member _ CODE_EXTENSIONS).
  - destruct (read_text file_path) as [raw|e] eqn:E.
    + eexists _, []. split; [apply Hsame | left; reflexivity].
    + eexists _, [ErrorReadingTextFile e]. split; [reflexivity|].
      right. exists e. repeat split; reflexivity.
  - destruct (member _ IMAGE_EXTENSIONS); [|destruct (member _ OFFICE_EXTENSIONS)];
      (eexists _, []; split; [apply Hsame | left; reflexivity]).
Qed.

(** X18. For a file with a code extension that can be read, the body
    holds the file's text as a CDATA payload between fixed markup, and
    that payload reads back as exactly the text of the file. *)
Theorem code_file_body_round_trip (filename file_path raw_content : string)
    (st : state W) :
  member (PyStr.lower (snd (os_path_splitext filename))) CODE_EXTENSIONS = true ->
  read_text file_path = Ok raw_content ->
  exists before payload after,
    get_content_body_for_file W os_path_splitext read_text filename file_path st
    = (Ok (before ++ payload ++ after), st) /\
    payload = cdata_payload (escape_cdata raw_content) /\
    cdata_text payload = Some raw_content.
Proof.
  intros Hext Hread.
  unfold get_content_body_for_file, ret. cbv zeta. rewrite Hext, Hread.
  unfold code_body.
  eexists _, (cdata_payload (escape_cdata raw_content)), _.
  split; [|split; [reflexivity|]].
  - f_equal. f_equal.
    repeat lazymatch goal with
           | |- (cdata_payload _ ++ _)%string = _ => fail
           | |- (_ ++ _)%string = _ => eapply split_after
           end.
    apply split_here.
  - unfold cdata_text, cdata_payload.
    change (cdata_text_from false 0
              (CDATA_OPEN ++ escape_cdata raw_content ++ CDATA_END))
      with (cdata_text_from true 0 (escape_cdata raw_content ++ CDATA_END)).
    apply (cdata_text_inside (String.length raw_content)). lia.
Qed.

End BodyFacts.

(** ** The entry points *)

Section ScriptFacts.

Variable W : Type.
Variable http : transport W.
Variable cfg : config.
Variable os_path_exists : string -> bool.
Variable os_path_basename : string -> string.
Variable os_path_join : string -> string -> string.
Variable os_path_splitext : string -> string * string.
Variable os_listdir : string -> result (list string).
Variable os_environ_get : string -> option string.
Variable read_text : string -> result string.
Variable read_bytes : string -> result (list Byte.byte).
Variable guess_type : string -> option string.

Local Notation "'folder_upload'" :=
  (upload_ils_directory http cfg os_path_exists os_path_basename os_path_join
     os_path_splitext os_listdir read_text read_bytes guess_type).
Local Notation "'files_loop'" :=
  (process_files W http cfg os_path_join os_path_splitext read_text read_bytes guess_type).
Local Notation "'skill_upload'" :=
  (upload_skill_file http cfg os_path_exists os_path_basename os_environ_get
     read_text read_bytes).

Lemma announced_app (a b : list output) :
  announced (a ++ b) = (announced a ++ announced b)%list.
Proof. apply flat_map_app. Qed.

Lemma announced_lines (lines : list line) : announced (map Line lines) = processed lines.
Proof.
  induction lines as [|l lines IH]; [reflexivity|].
  cbn [map]. change (Line l :: map Line lines) with ([Line l] ++ map Line lines)%list.
  rewrite announced_app, IH. destruct l; reflexivity.
Qed.

Lemma process_files_run (directory_path directory_page_title : string)
    (files : list string) (st : state W) :
  fst (files_loop directory_path directory_page_title files st) = Ok tt /\
  processed (printed (snd (files_loop directory_path directory_page_title files st)))
  = (processed (printed st) ++ files)%list.
Proof.
  revert st. induction files as [|f rest IH]; intros st.
  - cbn. rewrite app_nil_r. split; reflexivity.
  - cbn [process_files]. unfold bind.
    destruct (process_file_run W http cfg os_path_join os_path_splitext read_text
                read_bytes guess_type directory_path directory_page_title f st)
      as [Hok Hp].
    destruct (process_file W http cfg os_path_join os_path_splitext read_text
                read_bytes guess_type directory_path directory_page_title f st)
      as [r s1].
    cbn [fst snd] in Hok, Hp. subst r.
    destruct (IH s1) as [Hok1 Hp1]. split; [exact Hok1|].
    rewrite Hp1, Hp, <- app_assoc. reflexivity.
Qed.

Lemma new_page_announces_nothing (title content : string) (parent : option string)
    (w : W) (rs : list request) :
  processed (printed (snd (new_page http cfg title content parent (mkState w rs []))))
  = [].
Proof.
  destruct (quiet_new_page W http cfg title content parent (mkState w rs []))
    as (lines & E & P).
  rewrite E. exact P.
Qed.

(** X19. The folder upload lets one exception out and no other: the one
    [os.listdir] raises.  Every failure of the page upserts and of the
    per-file steps ends in a printed message and a normal return; and for
    a directory that does not exist only the error is printed and nothing
    is sent. *)
Theorem upload_ils_directory_outcome
    (directory_path directory_page_title section_parent_title : string)
    (ss : script_state W) :
  let run := folder_upload directory_path directory_page_title section_parent_title ss in
  (os_path_exists directory_path = false ->
   run = (Ok tt, mkScript (platform_world ss) (requests_sent ss)
                   (console ss ++ [Note (DirectoryNotFound directory_path)]))) /\
  (fst run = Ok tt \/
   exists e, os_listdir directory_path = Raise e /\ fst run = Raise e).
Proof.
  cbv zeta. unfold upload_ils_directory.
  destruct (os_path_exists directory_path); cbn [negb].
  2:{ split; [reflexivity | left; reflexivity]. }
  split; [discriminate|].
  unfold sbind, say, attempt, call, slift.
  cbn [platform_world requests_sent console].
  destruct (new_page http cfg section_parent_title _ _ _) as [[u|e] st1];
    cbn [platform_world requests_sent console]; [|left; reflexivity].
  destruct (new_page http cfg directory_page_title _ _ _) as [[u2|e] st2];
    cbn [platform_world requests_sent console]; [|left; reflexivity].
  destruct (os_listdir directory_path) as [names|e];
    [|right; exists e; split; reflexivity].
  destruct (supported_files names) as [|f files]; [left; reflexivity|].
  cbn [platform_world requests_sent console].
  pose proof (process_files_run directory_path directory_page_title (f :: files)
                (mkState (world st2) (sent st2) [])) as [Hok _].
  destruct (files_loop directory_path directory_page_title (f :: files) _) as [r st3].
  cbn [fst] in Hok. subst r. left. reflexivity.
Qed.


(** X21. An exception raised by the upsert of the directory page stops
    the folder upload there: it is printed as critical, the function
    returns normally, no file is processed, and no request follows those
    of that upsert. *)
Theorem upload_ils_directory_critical
    (directory_path directory_page_title section_parent_title : string)
    (ss : script_state W) (st1 st2 : state W) (e : exn) :
  os_path_exists directory_path = true ->
  new_page http cfg section_parent_title section_content (PARENT_PAGE_TITLE cfg)
    (mkState (platform_world ss) (requests_sent ss) []) = (Ok tt, st1) ->
  new_page http cfg directory_page_title
    (container_content (os_path_basename directory_path)) (Some section_parent_title)
    (mkState (world st1) (sent st1) []) = (Raise e, st2) ->
  let run := folder_upload directory_path directory_page_title section_parent_title ss in
  fst run = Ok tt /\
  requests_sent (snd run) = sent st2 /\
  platform_world (snd run) = world st2 /\
  announced (console (snd run)) = announced (console ss) /\
  exists shown, console (snd run) = (shown ++ [Note (CriticalDirectoryPage e)])%list.
Proof.
  intros Hex H1 H2. cbv zeta. unfold upload_ils_directory.
  rewrite Hex. cbn [negb].
  unfold sbind, say, attempt, call, slift.
  cbn [platform_world requests_sent console].
  pose proof (new_page_announces_nothing section_parent_title section_content
                (PARENT_PAGE_TITLE cfg) (platform_world ss) (requests_sent ss)) as P1.
  rewrite H1 in P1 |- *. cbn [snd] in P1.
  cbn [platform_world requests_sent console].
  pose proof (new_page_announces_nothing directory_page_title
                (container_content (os_path_basename directory_path))
                (Some section_parent_title) (world st1) (sent st1)) as P2.
  rewrite H2 in P2 |- *. cbn [snd] in P2.
  cbn [fst snd platform_world requests_sent console].
  repeat (split; [reflexivity|]). split.
  - rewrite !announced_app, !announced_lines, P1, P2. cbn [announced flat_map app].
    rewrite !app_nil_r. reflexivity.
  - eexists. reflexivity.
Qed.

(** X22. For a file that does not exist or whose text cannot be read,
    the skill upload returns normally and contacts nobody. *)
Theorem upload_skill_file_no_requests (file_path : string) (page_title : option string)
    (ss : script_state W) :
  (os_path_exists file_path = false \/ exists e, read_text file_path = Raise e) ->
  let run := skill_upload file_path page_title ss in
  fst run = Ok tt /\
  requests_sent (snd run) = requests_sent ss /\
  platform_world (snd run) = platform_world ss.
Proof.
  intros H. cbv zeta. unfold upload_skill_file.
  destruct (os_path_exists file_path); cbn [negb].
  2:{ repeat split; reflexivity. }
  destruct H as [H|[e H]]; [discriminate|].
  rewrite H. unfold sbind, say. cbn [fst snd platform_world requests_sent console].
  repeat split; reflexivity.
Qed.

(** X23. Once the page id is resolved and the file's bytes are read, the
    skill upload ends with the success line whatever the attachment
    upload does: when the upload raises, the error is printed and the
    success line still follows it. *)
Theorem upload_skill_file_reports_success (file_path : string)
    (page_title : option string) (ss : script_state W) (file_content : string)
    (st1 st2 : state W) (page_id : json) (file_bytes : list Byte.byte) :
  let filename := os_path_basename file_path in
  let title :=
    match page_title with
    | Some t => if String.eqb t "" then filename else t
    | None => filename
    end in
  os_path_exists file_path = true ->
  read_text file_path = Ok file_content ->
  new_page http cfg title (skill_page filename (skill_safe_content file_content))
    (PARENT_PAGE_TITLE cfg) (mkState (platform_world ss) (requests_sent ss) [])
  = (Ok tt, st1) ->
  get_page_id_by_title http cfg (Some title) (mkState (world st1) (sent st1) [])
  = (Ok page_id, st2) ->
  read_bytes file_path = Ok file_bytes ->
  let upload := upload_attachment_to_page http cfg page_id filename file_bytes
                  "text/plain" (mkState (world st2) (sent st2) []) in
  let run := skill_upload file_path page_title ss in
  fst run = Ok tt /\
  exists shown,
    console (snd run)
    = (shown ++ [Note (match fst upload with
                       | Ok _ => SkillAttachmentUploaded
                       | Raise e => ErrorUploadingSkillAttachment e
                       end);
                 Note (Success (os_environ_get "CONFLUENCE_BASE_URL")
                         (os_environ_get "CONFLUENCE_SPACE_KEY") (page_path title))])%list.
Proof.
  intros filename title Hex Hr H1 H2 Hb upload run. subst run.
  unfold upload_skill_file. rewrite Hex, Hr. cbn [negb].
  fold filename. fold title.
  unfold sbind, say, attempt, call, slift.
  cbn [platform_world requests_sent console].
  rewrite H1. cbn [platform_world requests_sent console].
  rewrite H2. cbn [platform_world requests_sent console].
  rewrite Hb. cbn [platform_world requests_sent console].
  fold upload. destruct upload as [[info|e] st3];
    cbn [fst snd platform_world requests_sent console];
    (split; [reflexivity|]); eexists; rewrite <- app_assoc; reflexivity.
Qed.

End ScriptFacts.

Section PageScriptFacts.

Variable W : Type.
Variable http : transport W.
Variable cfg : config.
Variable read_own_source : result string.
Variable table_html : string.
Variable img_bytes : list Byte.byte.

Local Notation "'publish'" :=
  (create_confluence_automation_page http cfg read_own_source table_html img_bytes).

Lemma upload_attachment_sent_head (page_id : json) (filename : string)
    (file_bytes : list Byte.byte) (mime_type : string) (st : state W) :
  exists rest,
    sent (snd (upload_attachment_to_page http cfg page_id filename file_bytes
                 mime_type st))
    = (sent st ++ attachment_post cfg (ChildAttachment page_id) filename file_bytes
                    mime_type :: rest)%list.
Proof.
  unfold upload_attachment_to_page, bind, send, raise, lift.
  destruct (http _ (world st)) as [[response|e] w1]; [|exists []; reflexivity].
  destruct (_ && _); [|exists []; destruct (negb _); reflexivity].
  cbn [world sent printed].
  destruct (http _ w1) as [[att_resp|e] w2]; cbn [world sent printed];
    [|eexists; cbn [snd sent]; rewrite <- app_assoc; reflexivity].
  destruct (status_code att_resp =? 200)%Z;
    [|eexists; cbn [snd sent]; rewrite <- app_assoc; reflexivity].
  destruct (_ <- response_json att_resp ;; _)%result as [results|e];
    [|eexists; cbn [snd sent]; rewrite <- app_assoc; reflexivity].
  destruct (Py.truthy results);
    [|eexists; cbn [snd sent]; rewrite <- app_assoc; reflexivity].
  destruct (_ <- Py.getindex results 0 ;; _)%result as [att_id|e];
    [|eexists; cbn [snd sent]; rewrite <- app_assoc; reflexivity].
  cbn [world sent printed].
  destruct (http _ w2) as [[update_resp|e] w3]; cbn [snd sent];
    [destruct (Py.in_200_201 _)|]; cbn [snd sent];
    eexists; rewrite <- !app_assoc; reflexivity.
Qed.

Lemma new_page_sent_extends (title content : string) (parent : option string)
    (st : state W) :
  exists more,
    sent (snd (new_page http cfg title content parent st)) = (sent st ++ more)%list.
Proof.
  destruct (get_page_id_by_title http cfg parent st) as [[parent_id|e] st1] eqn:H1.
  2:{ pose proof (get_page_id_by_title_sent W http cfg parent st) as Hs.
      cbv zeta in Hs. rewrite H1 in Hs. cbn [snd] in Hs.
      rewrite (new_page_lookup_failed W http cfg title content parent st st1 e H1).
      cbn [snd sent]. destruct Hs as [Hs|Hs]; rewrite Hs;
        [exists []; rewrite app_nil_r; reflexivity | eexists; reflexivity]. }
  pose proof (get_page_id_by_title_ok_sent W http cfg parent st st1 parent_id H1) as Hs.
  destruct (http (existence_query cfg title) (world st1)) as [[resp|e] w2] eqn:H2.
  2:{ rewrite (new_page_query_failed W http cfg title content parent st st1
                 parent_id e w2 H1 H2). cbn [snd sent].
      rewrite Hs, <- app_assoc. eexists. reflexivity. }
  rewrite (new_page_after_lookup W http cfg title content parent st st1
             parent_id resp w2 H1 H2). cbv zeta.
  destruct (existing_page parent_id resp) as [[[page_id version]|]|e].
  - rewrite update_existing_sent. cbn [sent]. rewrite Hs, <- !app_assoc.
    eexists. reflexivity.
  - rewrite create_new_sent. cbn [sent]. rewrite Hs, <- !app_assoc.
    eexists. reflexivity.
  - cbn [snd sent]. rewrite Hs, <- app_assoc. eexists. reflexivity.
Qed.







(** X25. The plot is attached to whatever page the title lookup names:
    once the first upsert has returned and the lookup of "Confluence
    Automation" has given an id, the next request is the create POST of
    [plot.png], with the plot's bytes, under that id. *)
Theorem create_page_attachment_target (ss : script_state W) (source : string)
    (st1 st2 : state W) (page_id : json) :
  environment_complete cfg = true ->
  read_own_source = Ok source ->
  new_page http cfg PAGE_TITLE (first_content table_html (escape_markup source))
    (PARENT_PAGE_TITLE cfg) (mkState (platform_world ss) (requests_sent ss) [])
  = (Ok tt, st1) ->
  get_page_id_by_title http cfg (Some PAGE_TITLE) (mkState (world st1) (sent st1) [])
  = (Ok page_id, st2) ->
  exists rest,
    requests_sent (snd (publish ss))
    = (sent st2
       ++ attachment_post cfg (ChildAttachment page_id) "plot.png" img_bytes "image/png"
       :: rest)%list.
Proof.
  intros He Hr H1 H2. unfold create_confluence_automation_page.
  rewrite He, Hr. cbn [negb]. unfold sbind, slift, call.
  cbn [platform_world requests_sent console].
  rewrite H1. cbn [platform_world requests_sent console].
  rewrite H2. cbn [platform_world requests_sent console].
  destruct (upload_attachment_sent_head page_id "plot.png" img_bytes "image/png"
              (mkState (world st2) (sent st2) [])) as (rest & Hu).
  destruct (upload_attachment_to_page http cfg page_id "plot.png" img_bytes
              "image/png" _) as [[info|e] st3]; cbn [snd sent] in Hu.
  - cbn [platform_world requests_sent console].
    destruct (new_page_sent_extends PAGE_TITLE
                (final_content table_html (escape_markup source))
                (PARENT_PAGE_TITLE cfg) (mkState (world st3) (sent st3) []))
      as (more & Hm).
    destruct (new_page http cfg PAGE_TITLE (final_content _ _) _ _) as [r st4].
    cbn [snd sent requests_sent] in Hm |- *.
    rewrite Hm, Hu, <- app_assoc. eexists. reflexivity.
  - cbn [snd requests_sent]. rewrite Hu. eexists. reflexivity.
Qed.

(** X26. The title lookup after the first upsert is not guarded: when it
    raises (the page was not created, so the title is not found), the
    page script raises that exception to its caller; nothing is attached
    and the second upsert does not run. *)
Theorem create_page_lookup_failure_raises (ss : script_state W) (source : string)
    (st1 st2 : state W) (e : exn) :
  environment_complete cfg = true ->
  read_own_source = Ok source ->
  new_page http cfg PAGE_TITLE (first_content table_html (escape_markup source))
    (PARENT_PAGE_TITLE cfg) (mkState (platform_world ss) (requests_sent ss) [])
  = (Ok tt, st1) ->
  get_page_id_by_title http cfg (Some PAGE_TITLE) (mkState (world st1) (sent st1) [])
  = (Raise e, st2) ->
  publish ss
  = (Raise e,
     mkScript (world st2) (sent st2)
       ((console ss ++ map Line (printed st1)) ++ map Line (printed st2))).
Proof.
  intros He Hr H1 H2. unfold create_confluence_automation_page.
  rewrite He, Hr. cbn [negb]. unfold sbind, slift, call.
  cbn [platform_world requests_sent console].
  rewrite H1. cbn [platform_world requests_sent console].
  rewrite H2. reflexivity.
Qed.

End PageScriptFacts.

Section GuardedSteps.

Variable W : Type.
Variable http : transport W.
Variable cfg : config.
Variable os_path_exists : string -> bool.
Variable os_path_basename : string -> string.
Variable os_path_join : string -> string -> string.
Variable os_environ_get : string -> option string.
Variable read_text : string -> result string.
Variable read_bytes : string -> result (list Byte.byte).
Variable guess_type : string -> option string.

(** X27. The skill upload guards the title lookup and the attachment
    upload, and nothing else: an exception that leaves it is one raised by
    the page upsert or by the binary read of the file.  Every other run
    returns normally. *)
Theorem upload_skill_file_escapes (file_path : string) (page_title : option string)
    (ss : script_state W) :
  let filename := os_path_basename file_path in
  let title :=
    match page_title with
    | Some t => if String.eqb t "" then filename else t
    | None => filename
    end in
  let run := upload_skill_file http cfg os_path_exists os_path_basename os_environ_get
               read_text read_bytes file_path page_title ss in
  fst run = Ok tt \/
  exists e,
    fst run = Raise e /\
    (read_bytes file_path = Raise e \/
     exists file_content,
       read_text file_path = Ok file_content /\
       fst (new_page http cfg title
              (skill_page filename (skill_safe_content file_content))
              (PARENT_PAGE_TITLE cfg)
              (mkState (platform_world ss) (requests_sent ss) [])) = Raise e).
Proof.
  intros filename title run. subst run. unfold upload_skill_file.
  destruct (os_path_exists file_path); cbn [negb]; [|left; reflexivity].
  fold filename. fold title.
  destruct (read_text file_path) as [file_content|e0] eqn:Hr; [|left; reflexivity].
  unfold sbind, say, attempt, call, slift.
  cbn [platform_world requests_sent console].
  destruct (new_page http cfg title _ _ _) as [[u|e] st1] eqn:H1;
    cbn [platform_world requests_sent console].
  2:{ right. exists e. split; [reflexivity|]. right. exists file_content.
      split; [reflexivity | rewrite H1; reflexivity]. }
  destruct (get_page_id_by_title http cfg (Some title) _) as [[page_id|e] st2];
    cbn [platform_world requests_sent console]; [|left; reflexivity].
  destruct (read_bytes file_path) as [file_bytes|e] eqn:Hb.
  2:{ right. exists e. split; [reflexivity | left; reflexivity]. }
  cbn [platform_world requests_sent console].
  destruct (upload_attachment_to_page http cfg page_id filename file_bytes _ _)
    as [[info|e] st3]; left; reflexivity.
Qed.

(** X28. The attachment step of the folder loop never raises, and it
    writes to the platform only for a file whose page id was resolved to a
    true value and whose bytes were read: the requests are then the lookup
    of the page titled as the file, followed by the create POST of the
    file under that id, with the guessed MIME type or
    [application/octet-stream] when there is no guess. *)
Theorem attach_sub_page_writes_resolved (directory_path filename : string)
    (st : state W) :
  let file_path := os_path_join directory_path filename in
  let run := attach_sub_page W http cfg os_path_join read_bytes guess_type
               directory_path filename st in
  fst run = Ok tt /\
  (Exists (fun rq => is_write rq = true) (issued st (snd run)) ->
   exists sub_page_id st1 file_bytes rest,
     get_page_id_by_title http cfg (Some filename) st = (Ok sub_page_id, st1) /\
     Py.truthy sub_page_id = true /\
     read_bytes file_path = Ok file_bytes /\
     issued st (snd run)
     = lookup_query cfg (Some filename)
       :: attachment_post cfg (ChildAttachment sub_page_id) filename file_bytes
            (match guess_type file_path with
             | Some m => m
             | None => "application/octet-stream"
             end)
       :: rest).
Proof.
  intros file_path run. subst run.
  unfold attach_sub_page, bind, try, print, ret. cbv zeta. fold file_path.
  assert (Hreads : forall (r : result unit) (s : state W),
            sent s = sent st \/ sent s = (sent st ++ [lookup_query cfg (Some filename)])%list ->
            ~ Exists (fun rq => is_write rq = true) (issued st s)).
  { intros r s [Hs|Hs] Hex.
    - rewrite (issued_app W st s []) in Hex by (rewrite app_nil_r; exact Hs).
      inversion Hex.
    - rewrite (issued_app W st s _ Hs) in Hex.
      inversion Hex as [? ? Hw|? ? Hw]; [discriminate Hw | inversion Hw]. }
  unfold attach_file, bind, lift, print.
  pose proof (get_page_id_by_title_sent W http cfg (Some filename) st) as Hsent.
  cbv zeta in Hsent.
  destruct (get_page_id_by_title http cfg (Some filename) st)
    as [[sub_page_id|e] st1] eqn:H1; cbn [snd] in Hsent.
  2:{ cbn [fst snd]. split; [reflexivity|]. intros Hex. exfalso.
      apply (Hreads (Ok tt) _ Hsent Hex). }
  pose proof (get_page_id_by_title_ok_sent W http cfg (Some filename) st st1
                sub_page_id H1) as Hs.
  destruct (Py.truthy sub_page_id) eqn:Ht; cbn [negb].
  2:{ cbn [fst snd]. split; [reflexivity|]. intros Hex. exfalso.
      apply (Hreads (Ok tt) _ Hsent Hex). }
  destruct (read_bytes file_path) as [file_bytes|e] eqn:Hb.
  2:{ cbn [fst snd]. split; [reflexivity|]. intros Hex. exfalso.
      apply (Hreads (Ok tt) _ Hsent Hex). }
  destruct (upload_attachment_sent_head W http cfg sub_page_id filename file_bytes
              (match guess_type file_path with
               | Some m => m
               | None => "application/octet-stream"
               end) st1) as (rest & Hu).
  destruct (upload_attachment_to_page http cfg sub_page_id filename file_bytes _ st1)
    as [[info|e] st2]; cbn [snd] in Hu; cbn [fst snd];
    (split; [reflexivity|]); intros _;
    exists sub_page_id, st1, file_bytes, rest;
    (split; [reflexivity|]); (split; [exact Ht|]); (split; [reflexivity|]);
    apply issued_app; cbn [sent]; rewrite Hu, Hs, <- app_assoc; reflexivity.
Qed.

End GuardedSteps.

(** ** Runs of the further properties on the sample data *)

Section MoreRuns.

Lemma resolved_id_origin_witness :
  exists first, Py.getitem first "id" = Ok (JStr "100").
Proof.
  destruct (resolved_id_origin _ replay Demo.cfg (Some "P")
              (Demo.start [Ok Demo.parent_found])
              (mkState [] [lookup_query Demo.cfg (Some "P")] []) (JStr "100") eq_refl)
    as (response & w1 & data & size & results & first & _ & _ & _ & _ & _ & _ & _ & _
        & Hid & _).
  exists first. exact Hid.
Defined.

Lemma title_lookup_rejected_witness :
  get_page_id_by_title replay Demo.cfg (Some "P") (Demo.start [Ok Sample.forbidden])
  = (Raise (Exception (FailedToFetchPageId 403 "Forbidden")),
     mkState [] [lookup_query Demo.cfg (Some "P")] []).
Proof.
  refine (title_lookup_rejected _ replay Demo.cfg (Some "P")
            (Demo.start [Ok Sample.forbidden]) Sample.forbidden [] _ _ _);
    [reflexivity | reflexivity | discriminate].
Defined.

Lemma title_lookup_undecodable_witness :
  exists preview,
    get_page_id_by_title replay Demo.cfg (Some "P") (Demo.start [Ok Sample.login_page])
    = (Raise JSONDecodeError,
       mkState [] [lookup_query Demo.cfg (Some "P")] [DebugDecodeFailed preview]) /\
    preview = PyStr.take 500 (text Sample.login_page) /\
    String.length preview <= 500.
Proof.
  refine (title_lookup_undecodable _ replay Demo.cfg (Some "P")
            (Demo.start [Ok Sample.login_page]) Sample.login_page [] _ _ _ _);
    reflexivity.
Defined.

Lemma new_page_parent_unresolved_witness :
  new_page replay Demo.cfg "X" "body" (Some "P") (Demo.start [Ok Sample.forbidden])
  = (Ok tt,
     mkState [] [lookup_query Demo.cfg (Some "P")]
       [ErrorFindingParent (Some "P") (Exception (FailedToFetchPageId 403 "Forbidden"))]).
Proof.
  refine (proj1 (new_page_parent_unresolved _ replay Demo.cfg "X" "body" (Some "P")
                   (Demo.start [Ok Sample.forbidden])
                   (mkState [] [lookup_query Demo.cfg (Some "P")] [])
                   (Exception (FailedToFetchPageId 403 "Forbidden")) _)).
  reflexivity.
Defined.

Lemma new_page_unconfigured_witness :
  new_page replay Sample.unconfigured_cfg "X" "body" (Some "P") Demo.updating
  = (Ok tt,
     mkState [Ok Demo.parent_found; Ok Demo.two_pages; Ok Demo.written] []
       [ErrorFindingParent (Some "P") (ValueError (MISSING_CONFIGURATION))]).
Proof.
  refine (new_page_unconfigured _ replay Sample.unconfigured_cfg "X" "body" (Some "P")
            Demo.updating _).
  reflexivity.
Defined.

Lemma new_page_unusable_candidate_witness :
  issued (Demo.start [Ok Demo.parent_found; Ok Sample.unversioned_page])
    (snd (new_page replay Demo.cfg "X" "body" (Some "P")
            (Demo.start [Ok Demo.parent_found; Ok Sample.unversioned_page])))
  = [lookup_query Demo.cfg (Some "P"); existence_query Demo.cfg "X"].
Proof.
  refine (proj2 (new_page_unusable_candidate _ replay Demo.cfg "X" "body" (Some "P")
                   (Demo.start [Ok Demo.parent_found; Ok Sample.unversioned_page])
                   (mkState [Ok Sample.unversioned_page]
                      [lookup_query Demo.cfg (Some "P")] [])
                   (JStr "100") Sample.unversioned_page []
                   [Demo.under_other] [] Sample.unversioned KeyError
                   _ _ _ _ _ _ _)); try reflexivity.
  constructor; [reflexivity | constructor].
Defined.


Lemma new_page_undecodable_check_witness :
  new_page replay Demo.cfg "X" "body" (Some "P")
    (Demo.start [Ok Demo.parent_found; Ok Sample.login_page])
  = (Raise JSONDecodeError,
     mkState [] [lookup_query Demo.cfg (Some "P"); existence_query Demo.cfg "X"] []).
Proof.
  refine (new_page_undecodable_check _ replay Demo.cfg "X" "body" (Some "P")
            (Demo.start [Ok Demo.parent_found; Ok Sample.login_page])
            (mkState [Ok Sample.login_page] [lookup_query Demo.cfg (Some "P")] [])
            (JStr "100") Sample.login_page [] _ _ _ _);
    reflexivity.
Defined.

Lemma upload_attachment_created_witness :
  upload_attachment_to_page replay Demo.cfg (JStr "8") "plot.png" Demo.first_bytes
    "image/png" (Demo.start [Ok Sample.attachment_created])
  = (response_json Sample.attachment_created,
     mkState []
       [attachment_post Demo.cfg (ChildAttachment (JStr "8")) "plot.png"
          Demo.first_bytes "image/png"] []).
Proof.
  refine (upload_attachment_created _ replay Demo.cfg (JStr "8") "plot.png"
            Demo.first_bytes "image/png" (Demo.start [Ok Sample.attachment_created])
            Sample.attachment_created [] _ _); reflexivity.
Defined.

Lemma upload_attachment_rejected_witness :
  upload_attachment_to_page replay Demo.cfg (JStr "8") "plot.png" Demo.first_bytes
    "image/png" (Demo.start [Ok Sample.too_large])
  = (Raise (Exception (FailedToUploadAttachment 413 "Request Entity Too Large")),
     mkState []
       [attachment_post Demo.cfg (ChildAttachment (JStr "8")) "plot.png"
          Demo.first_bytes "image/png"] []).
Proof.
  refine (upload_attachment_rejected _ replay Demo.cfg (JStr "8") "plot.png"
            Demo.first_bytes "image/png" (Demo.start [Ok Sample.too_large])
            Sample.too_large [] _ _ _); try reflexivity.
  left. discriminate.
Defined.

Lemma upload_attachment_replaced_witness :
  upload_attachment_to_page replay Demo.cfg (JStr "8") "plot.png" Demo.second_bytes
    "image/png"
    (Demo.start [Ok Demo.name_collision; Ok Sample.attachment_found;
                 Ok Sample.attachment_updated])
  = (response_json Sample.attachment_updated,
     mkState []
       [attachment_post Demo.cfg (ChildAttachment (JStr "8")) "plot.png"
          Demo.second_bytes "image/png";
        attachment_lookup Demo.cfg (JStr "8") "plot.png";
        attachment_post Demo.cfg (AttachmentData (JStr "8") (JStr "att1")) "plot.png"
          Demo.second_bytes "image/png"] []).
Proof.
  refine (upload_attachment_replaced _ replay Demo.cfg (JStr "8") "plot.png"
            Demo.second_bytes "image/png"
            (Demo.start [Ok Demo.name_collision; Ok Sample.attachment_found;
                         Ok Sample.attachment_updated])
            Demo.name_collision Sample.attachment_found Sample.attachment_updated
            [Ok Sample.attachment_found; Ok Sample.attachment_updated]
            [Ok Sample.attachment_updated] []
            (result_list [JObj [("id", JStr "att1")]; JObj [("id", JStr "att2")]])
            (JObj [("id", JStr "att1")]) (JStr "att1") [JObj [("id", JStr "att2")]]
            _ _ _ _ _ _ _ _ _); reflexivity.
Defined.

Lemma code_file_body_round_trip_witness :
  exists before payload after,
    get_content_body_for_file _ Fixture.ils_ext Fixture.text "a.ILS" "dir/a.ILS"
      Demo.offline
    = (Ok (before ++ payload ++ after), Demo.offline) /\
    payload = cdata_payload (escape_cdata "(when x ]]> y)") /\
    cdata_text payload = Some "(when x ]]> y)".
Proof.
  refine (code_file_body_round_trip _ Fixture.ils_ext Fixture.text "a.ILS" "dir/a.ILS"
            "(when x ]]> y)" Demo.offline _ _); reflexivity.
Defined.


Lemma upload_ils_directory_critical_witness :
  let run := upload_ils_directory replay Demo.cfg Fixture.present Fixture.basename
               Fixture.join Fixture.ils_ext Fixture.listing Fixture.text Fixture.bytes
               Fixture.no_guess "dir" "Folder" "Section" Fixture.one_lookup in
  fst run = Ok tt /\
  requests_sent (snd run)
  = [lookup_query Demo.cfg (Some "Home"); lookup_query Demo.cfg (Some "Section");
     existence_query Demo.cfg "Folder"].
Proof.
  destruct (upload_ils_directory_critical _ replay Demo.cfg Fixture.present
              Fixture.basename Fixture.join Fixture.ils_ext Fixture.listing Fixture.text
              Fixture.bytes Fixture.no_guess "dir" "Folder" "Section" Fixture.one_lookup
              (mkState [Ok Demo.parent_found] [lookup_query Demo.cfg (Some "Home")]
                 [ErrorFindingParent (Some "Home") ConnectionError])
              (mkState []
                 [lookup_query Demo.cfg (Some "Home");
                  lookup_query Demo.cfg (Some "Section");
                  existence_query Demo.cfg "Folder"] [])
              ConnectionError eq_refl eq_refl eq_refl)
    as (Hok & Hsent & _).
  split; [exact Hok | exact Hsent].
Defined.

Lemma upload_skill_file_no_requests_witness :
  let run := upload_skill_file replay Demo.cfg Fixture.absent Fixture.basename
               Fixture.environ Fixture.text Fixture.bytes "a.ils" None
               Fixture.one_lookup in
  fst run = Ok tt /\
  requests_sent (snd run) = requests_sent Fixture.one_lookup /\
  platform_world (snd run) = platform_world Fixture.one_lookup.
Proof.
  refine (upload_skill_file_no_requests _ replay Demo.cfg Fixture.absent Fixture.basename
            Fixture.environ Fixture.text Fixture.bytes "a.ils" None Fixture.one_lookup _).
  left. reflexivity.
Defined.

Lemma upload_skill_file_reports_success_witness :
  let run := upload_skill_file replay Demo.cfg Fixture.present Fixture.basename
               Fixture.environ Fixture.text Fixture.bytes "a.ils" None
               Fixture.one_lookup in
  fst run = Ok tt /\
  exists shown,
    console (snd run)
    = (shown ++ [Note (ErrorUploadingSkillAttachment ConnectionError);
                 Note (Success None None "a.ils")])%list.
Proof.
  refine (upload_skill_file_reports_success _ replay Demo.cfg Fixture.present
            Fixture.basename Fixture.environ Fixture.text Fixture.bytes "a.ils" None
            Fixture.one_lookup "(when x ]]> y)"
            (mkState [Ok Demo.parent_found] [lookup_query Demo.cfg (Some "Home")]
               [ErrorFindingParent (Some "Home") ConnectionError])
            (mkState []
               [lookup_query Demo.cfg (Some "Home"); lookup_query Demo.cfg (Some "a.ils")]
               [])
            (JStr "100") Demo.first_bytes _ _ _ _ _); reflexivity.
Defined.

Lemma create_page_attachment_target_witness :
  exists rest,
    requests_sent
      (snd (create_confluence_automation_page replay Demo.cfg (Ok "if a < b:")
              "<table/>" Demo.first_bytes Fixture.one_lookup))
    = ([lookup_query Demo.cfg (Some "Home"); lookup_query Demo.cfg (Some PAGE_TITLE)]
       ++ attachment_post Demo.cfg (ChildAttachment (JStr "100")) "plot.png"
            Demo.first_bytes "image/png"
       :: rest)%list.
Proof.
  refine (create_page_attachment_target _ replay Demo.cfg (Ok "if a < b:") "<table/>"
            Demo.first_bytes Fixture.one_lookup "if a < b:"
            (mkState [Ok Demo.parent_found] [lookup_query Demo.cfg (Some "Home")]
               [ErrorFindingParent (Some "Home") ConnectionError])
            (mkState []
               [lookup_query Demo.cfg (Some "Home");
                lookup_query Demo.cfg (Some PAGE_TITLE)] [])
            (JStr "100") _ _ _ _); reflexivity.
Defined.

Lemma create_page_lookup_failure_raises_witness :
  create_confluence_automation_page replay Demo.cfg (Ok "if a < b:") "<table/>"
    Demo.first_bytes Fixture.first_fails
  = (Raise ConnectionError,
     mkScript []
       [lookup_query Demo.cfg (Some "Home"); lookup_query Demo.cfg (Some PAGE_TITLE)]
       (([] ++ map Line [ErrorFindingParent (Some "Home") ConnectionError])
        ++ map Line [])).
Proof.
  refine (create_page_lookup_failure_raises _ replay Demo.cfg (Ok "if a < b:")
            "<table/>" Demo.first_bytes Fixture.first_fails "if a < b:"
            (mkState [] [lookup_query Demo.cfg (Some "Home")]
               [ErrorFindingParent (Some "Home") ConnectionError])
            (mkState []
               [lookup_query Demo.cfg (Some "Home");
                lookup_query Demo.cfg (Some PAGE_TITLE)] [])
            ConnectionError _ _ _ _); reflexivity.
Defined.

(** The folder upload on the sample listing: [d.txt] is left out. *)
Example folder_upload_offline :
  announced
    (console
       (snd (upload_ils_directory replay Demo.cfg Fixture.present Fixture.basename
               Fixture.join Fixture.ils_ext Fixture.listing Fixture.text Fixture.bytes
               Fixture.no_guess "dir" "Folder" "Section" Fixture.offline)))
  = ["a.ils"; "b.png"; "c.docx"; "E.IL"].
Proof. vm_compute. reflexivity. Qed.

(** The page script with an incomplete environment: one message, nothing
    sent. *)
Example page_script_incomplete_environment :
  create_confluence_automation_page replay Sample.unconfigured_cfg (Ok "if a < b:")
    "<table/>" Demo.first_bytes Fixture.one_lookup
  = (Ok tt,
     mkScript [Raise ConnectionError; Ok Demo.parent_found] []
       [Note MissingEnvironment]).
Proof. reflexivity. Qed.

(** The skill upload lets the failure of the page upsert out: the parent
    is resolved and nobody answers the existence check. *)
Example skill_upload_upsert_fails :
  fst (upload_skill_file replay Demo.cfg Fixture.present Fixture.basename
         Fixture.environ Fixture.text Fixture.bytes "a.ils" None
         (Fixture.start [Ok Demo.parent_found]))
  = Raise ConnectionError.
Proof. vm_compute. reflexivity. Qed.

(** The attachment step of the loop on a resolved page: the lookup, then
    the create POST with the fallback MIME type. *)
Example attach_sub_page_resolved :
  issued (Demo.start [Ok Demo.parent_found; Ok Sample.attachment_created])
    (snd (attach_sub_page _ replay Demo.cfg Fixture.join Fixture.bytes Fixture.no_guess
            "dir" "a.ils"
            (Demo.start [Ok Demo.parent_found; Ok Sample.attachment_created])))
  = [lookup_query Demo.cfg (Some "a.ils");
     attachment_post Demo.cfg (ChildAttachment (JStr "100")) "a.ils" Demo.first_bytes
       "application/octet-stream"].
Proof. vm_compute. reflexivity. Qed.

End MoreRuns.
